(** * node-bsatk: the asynchronous archive-access layer of [src/index.cpp]

    A shallow embedding of the binding layer that sits between a JavaScript
    caller and the BSA archive engine.  C++ objects become records, nullable
    pointers become [option], [unsigned int] becomes [Z] reduced modulo 2^32,
    and code that reads [errno], asks for the current isolate, throws, or
    calls back into JavaScript runs in a small state-and-exception monad over
    an explicit [World]. *)

From Stdlib Require Import ZArith List String Bool Lia.
Import ListNotations.

Local Open Scope string_scope.
Local Open Scope Z_scope.

(** A [const char *]: [None] is [nullptr]. *)
Definition cstr : Type := option string.

(** A [const char *] member that nothing may have assigned yet: it holds a
    pointer that was stored there (null or a string), or whatever bits the
    allocation left, which point nowhere. *)
Inductive char_ptr : Type :=
| Pointing (s : cstr)
| Wild.

(* ------------------------------------------------------------------ *)
(** * Engine enumerations *)

(** Modelled from the spec: the engine header that declares
    [BSA::EErrorCode] is not in the source tree.  The enumerators are the
    eight that [convertErrorCode] names; [ERROR_UNNAMED n] stands for any
    further value of the enumeration type that this layer has no case for. *)
Inductive EErrorCode : Type :=
| ERROR_NONE
| ERROR_FILENOTFOUND
| ERROR_INVALIDDATA
| ERROR_INVALIDHASHES
| ERROR_ACCESSFAILED
| ERROR_CANCELED
| ERROR_SOURCEFILEMISSING
| ERROR_ZLIBINITFAILED
| ERROR_UNNAMED (n : Z).

Definition EErrorCode_eq_dec (a b : EErrorCode) : {a = b} + {a <> b}.
Proof. decide equality. apply Z.eq_dec. Defined.

(** [a == b] on error codes. *)
Definition code_eqb (a b : EErrorCode) : bool :=
  if EErrorCode_eq_dec a b then true else false.

(** Modelled from the spec: the engine header that declares [BSA::EType] is
    not in the source tree.  [getType] names two enumerators; the comment in
    it says that Fallout 3 and Fallout NV use the same type as Skyrim, so
    these are aliases of [TYPE_SKYRIM].  [TYPE_UNNAMED n] is any other value
    the engine may report. *)
Inductive EType : Type :=
| TYPE_OBLIVION
| TYPE_SKYRIM
| TYPE_UNNAMED (n : Z).

Definition TYPE_FALLOUT3 : EType := TYPE_SKYRIM.
Definition TYPE_FALLOUTNV : EType := TYPE_SKYRIM.

(* ------------------------------------------------------------------ *)
(** * Error taxonomy *)

(** [const char *convertErrorCode(BSA::EErrorCode code)] *)
Definition convertErrorCode (code : EErrorCode) : cstr :=
  match code with
  | ERROR_ACCESSFAILED => Some "access failed"
  | ERROR_CANCELED => Some "canceled"
  | ERROR_FILENOTFOUND => Some "file not found"
  | ERROR_INVALIDDATA => Some "invalid data"
  | ERROR_INVALIDHASHES => Some "invalid hashes"
  | ERROR_SOURCEFILEMISSING => Some "source file missing"
  | ERROR_ZLIBINITFAILED => Some "zlib init failed"
  | ERROR_NONE => None
  | _ => Some "unknown"
  end.

(** The codes [convertErrorCode] has a case for. *)
Definition named_codes : list EErrorCode :=
  [ ERROR_ACCESSFAILED; ERROR_CANCELED; ERROR_FILENOTFOUND; ERROR_INVALIDDATA;
    ERROR_INVALIDHASHES; ERROR_SOURCEFILEMISSING; ERROR_ZLIBINITFAILED;
    ERROR_NONE ].

(** The taxonomy as the specification words it: a closed table from outcome
    code to description, [None] for success, and "unknown" for any code that
    is not in the table. *)
Definition taxonomy : list (EErrorCode * cstr) :=
  [ (ERROR_NONE, None);
    (ERROR_ACCESSFAILED, Some "access failed");
    (ERROR_CANCELED, Some "canceled");
    (ERROR_FILENOTFOUND, Some "file not found");
    (ERROR_INVALIDDATA, Some "invalid data");
    (ERROR_INVALIDHASHES, Some "invalid hashes");
    (ERROR_SOURCEFILEMISSING, Some "source file missing");
    (ERROR_ZLIBINITFAILED, Some "zlib init failed") ].

Definition description (c : EErrorCode) : cstr :=
  match find (fun entry => code_eqb (fst entry) c) taxonomy with
  | Some entry => snd entry
  | None => Some "unknown"
  end.

(** The test both [BSArchive::read]/[write] and
    [LoadWorker::HandleErrorCallback] use to pick an errno-based error:
    [(err == ERROR_ACCESSFAILED) || (err == ERROR_FILENOTFOUND)]. *)
Definition is_os_error (err : EErrorCode) : bool :=
  code_eqb err ERROR_ACCESSFAILED || code_eqb err ERROR_FILENOTFOUND.

(** [class BSAException : public std::exception] *)
Module BSAException.

Record t : Type := mk {
  m_Code : EErrorCode;
  m_Errno : Z;
  m_SysCall : cstr
}.

(** The constructor reads the thread's [errno] when the object is built;
    [cur_errno] is that value. *)
Definition new (code : EErrorCode) (sysCall : cstr) (cur_errno : Z) : t :=
  {| m_Code := code; m_Errno := cur_errno; m_SysCall := sysCall |}.

Definition what (e : t) : cstr := convertErrorCode (m_Code e).
Definition code (e : t) : EErrorCode := m_Code e.
Definition sysError (e : t) : Z := m_Errno e.
Definition sysCall (e : t) : cstr := m_SysCall e.

End BSAException.

(** What a C++ [throw] can carry here: a [BSAException], or some other
    [std::exception] of which only [what()] is observed. *)
Inductive Exn : Type :=
| ExBSA (e : BSAException.t)
| ExStd (what : string).

(* ------------------------------------------------------------------ *)
(** * The engine's tree *)

Definition UINT_MOD : Z := 2 ^ 32.

(** Conversion to [unsigned int]. *)
Definition to_uint (z : Z) : Z := z mod UINT_MOD.

(** Modelled from the spec: [BSA::File] is engine code outside the source
    tree.  A file entry has a name, a full path, an uncompressed size, a
    source location (inside the parsed container, or an external path staged
    for inclusion) and a compression flag. *)
Inductive FileSource : Type :=
| InContainer (offset : Z)
| ExternalPath (path : string).

Record File : Type := mkFile {
  file_name : string;
  file_path : string;
  file_size : Z;
  file_source : FileSource;
  file_compressed : bool
}.

#[local] Set Warnings "-register-all".

(** Modelled from the spec: [BSA::Folder] is engine code outside the source
    tree.  A folder is a named node with an ordered list of subfolders and an
    ordered list of files. *)
Inductive Folder : Type :=
| mkFolder (name : string) (full_path : string)
           (subfolders : list Folder) (files : list File).

Module Folder_.

(** Modelled from the spec: the accessors of [BSA::Folder], which are engine
    code outside the source tree: name, full path, the two ordered child
    lists, and their sizes as [unsigned int]. *)
Definition getName (f : Folder) : string :=
  match f with mkFolder n _ _ _ => n end.
Definition getFullPath (f : Folder) : string :=
  match f with mkFolder _ p _ _ => p end.
Definition subfolders (f : Folder) : list Folder :=
  match f with mkFolder _ _ s _ => s end.
Definition files (f : Folder) : list File :=
  match f with mkFolder _ _ _ fs => fs end.

Definition getNumSubFolders (f : Folder) : Z :=
  to_uint (Z.of_nat (List.length (subfolders f))).

Definition getNumFiles (f : Folder) : Z :=
  to_uint (Z.of_nat (List.length (files f))).

(** Modelled from the spec: [subfolder(index)] and [file(index)] are
    "bounds-checked; out-of-range is a programmer error, not a recoverable
    Error".  Indexing with an [unsigned int] yields the child, and out of
    range it raises instead of returning (here [None]). *)
Definition at_index {A : Type} (l : list A) (index : Z) : option A :=
  if (0 <=? index) && (index <? Z.of_nat (List.length l))
  then nth_error l (Z.to_nat index) else None.

Definition getSubFolder (f : Folder) (index : Z) : option Folder :=
  at_index (subfolders f) index.

Definition getFile (f : Folder) (index : Z) : option File :=
  at_index (files f) index.

(** Modelled from the spec: the recursive file count is "all files under
    this subtree, computed by summing over subfolders"; the running total is
    an [unsigned int]. *)
Fixpoint countFiles (f : Folder) : Z :=
  match f with
  | mkFolder _ _ subs fs =>
      to_uint
        (fold_left (fun acc sub => to_uint (acc + countFiles sub)) subs 0
         + Z.of_nat (List.length fs))
  end.

(** The number of files under a folder as a mathematical integer. *)
Fixpoint total_files (f : Folder) : Z :=
  match f with
  | mkFolder _ _ subs fs =>
      fold_right (fun sub acc => total_files sub + acc) 0 subs
      + Z.of_nat (List.length fs)
  end.

End Folder_.

(** Modelled from the spec: [BSA::Archive] is engine code outside the source
    tree.  The in-memory state of an archive is its root folder and its
    format variant. *)
Record Archive : Type := mkArchive {
  ar_root : Folder;
  ar_type : EType
}.

Module Archive_.

(** Modelled from the spec: [root()] and [formatVariant()] of the engine's
    archive are plain reads of its state. *)
Definition getRoot (a : Archive) : Folder := ar_root a.
Definition getType (a : Archive) : EType := ar_type a.

(** Modelled from the spec: [createFile] "stages an external file for
    inclusion; does not validate sourcePath existence eagerly".  It builds an
    entry that remembers the external path and touches nothing else; the size
    is not known before the file is read at write time. *)
Definition createFile (a : Archive) (name sourcePath : string)
  (compressed : bool) : File :=
  {| file_name := name; file_path := name; file_size := 0;
     file_source := ExternalPath sourcePath; file_compressed := compressed |}.

End Archive_.

(* ------------------------------------------------------------------ *)
(** * Handles, JavaScript values and the world *)

(** [class BSAFile]: a handle around a [std::shared_ptr<BSA::File>], which
    may be null. *)
Module BSAFile.

Record t : Type := mk { m_File : option File }.

Definition new (file : option File) : t := {| m_File := file |}.

Definition getWrappee (this : t) : option File := m_File this.

(** The getters dereference the pointer; on a null pointer there is no
    result. *)
Definition getName (this : t) : option string :=
  option_map file_name (m_File this).
Definition getFilePath (this : t) : option string :=
  option_map file_path (m_File this).
Definition getFileSize (this : t) : option Z :=
  option_map file_size (m_File this).

End BSAFile.

(** [class BSAFolder]: a handle around a [std::shared_ptr<BSA::Folder>].
    Every method forwards to the engine's folder. *)
Module BSAFolder.

Record t : Type := mk { m_Folder : Folder }.

Definition new (folder : Folder) : t := {| m_Folder := folder |}.

Definition getName (this : t) : string := Folder_.getName (m_Folder this).
Definition getFullPath (this : t) : string :=
  Folder_.getFullPath (m_Folder this).
Definition getNumSubFolders (this : t) : Z :=
  Folder_.getNumSubFolders (m_Folder this).
Definition getSubFolder (this : t) (index : Z) : option t :=
  option_map new (Folder_.getSubFolder (m_Folder this) index).
Definition getNumFiles (this : t) : Z := Folder_.getNumFiles (m_Folder this).
Definition countFiles (this : t) : Z := Folder_.countFiles (m_Folder this).
Definition getFile (this : t) (index : Z) : option BSAFile.t :=
  option_map (fun f => BSAFile.new (Some f))
             (Folder_.getFile (m_Folder this) index).

(** Follow a list of subfolder indices downwards with [getSubFolder]. *)
Fixpoint descend (this : t) (path : list Z) : option t :=
  match path with
  | [] => Some this
  | i :: rest =>
      match getSubFolder this i with
      | Some sub => descend sub rest
      | None => None
      end
  end.

(** The direct subfolders, as [getSubFolder] yields them for the indices
    [0 .. getNumSubFolders - 1]. *)
Definition children (this : t) : list t :=
  map new (Folder_.subfolders (m_Folder this)).

End BSAFolder.

(** The data members of [class BSArchive]; its methods come after the
    monad they run in. *)
Record BSArchive_t : Type := mkBSArchive {
  m_Wrapped : Archive;
  m_Name : string
}.

(** A JavaScript function is known by its identity only. *)
Definition JsFunction : Type := nat.

(** The JavaScript values this layer builds: [Nan::Null()], [Nan::Error(msg)],
    [Nan::ErrnoException(errorno, syscall)] and the wire form of a
    [BSArchive]. *)
Inductive JsValue : Type :=
| JsNull
| JsError (msg : string)
| JsErrnoException (errorno : Z) (syscall : cstr)
| JsArchive (a : BSArchive_t).

(** A [v8::Isolate] as far as this layer touches it: the exception that
    [ThrowException] scheduled, if any. *)
Record Isolate : Type := mkIsolate { pending : option JsValue }.

(** The engine operations that can do I/O, as this layer calls them. *)
Inductive EngineCall : Type :=
| CallRead (fileName : string) (testHashes : bool)
| CallWrite (fileName : string)
| CallExtract (file : File) (outputDirectory : string)
| CallExtractAll (outputDirectory : string) (progress : Z -> string -> bool).

(** What the engine's [read] can do: return a code (having filled in the
    archive), or raise a [std::exception]. *)
Inductive ReadOutcome : Type :=
| ReadReturns (code : EErrorCode) (ar : Archive)
| ReadRaises (what : string).

(** The archive engine, an external collaborator.  Its I/O operations act on
    a state of their own ([Disk]) and on [errno]; nothing else about them is
    assumed.  [toWC] is the string conversion of [string_cast.h]. *)
Class Engine : Type := {
  Disk : Type;
  Archive_new : Archive;
  toWC : string -> string;
  Archive_read :
    string -> bool -> Archive -> Z * Disk -> ReadOutcome * (Z * Disk);
  Archive_write : string -> Archive -> Z * Disk -> EErrorCode * (Z * Disk);
  Archive_extract :
    Archive -> File -> string -> Z * Disk -> EErrorCode * (Z * Disk);
  Archive_extractAll :
    Archive -> string -> (Z -> string -> bool) -> Z * Disk ->
    EErrorCode * (Z * Disk)
}.

(** The state the layer runs against: the running thread's [errno] and
    current isolate ([None] when [v8::Isolate::GetCurrent()] is [nullptr]),
    the engine's disk, and two logs (oldest entry first): the I/O calls made
    on the engine and the calls made on JavaScript functions. *)
Record World {E : Engine} : Type := mkWorld {
  errno : Z;
  disk : Disk;
  isolate : option Isolate;
  engine_calls : list EngineCall;
  js_calls : list (JsFunction * list JsValue)
}.

(* ------------------------------------------------------------------ *)
(** * A monad for C++ code: state, exceptions, and crashes *)

(** How a piece of C++ ends: it returns, an exception leaves it, or it
    dereferences what it must not ([Crash]). *)
Inductive Res (A : Type) : Type :=
| Ret (a : A)
| Throw (e : Exn)
| Crash.

Arguments Ret {A} a.
Arguments Throw {A} e.
Arguments Crash {A}.

Definition M {E : Engine} (A : Type) : Type := World -> Res A * World.

Section Monad.
Context {E : Engine}.

Definition ret {A : Type} (a : A) : M A := fun w => (Ret a, w).

Definition bind {A B : Type} (m : M A) (k : A -> M B) : M B :=
  fun w =>
    match m w with
    | (Ret a, w') => k a w'
    | (Throw e, w') => (Throw e, w')
    | (Crash, w') => (Crash, w')
    end.

Definition throw {A : Type} (e : Exn) : M A := fun w => (Throw e, w).

Definition crash {A : Type} : M A := fun w => (Crash, w).

(** [try { body } catch (...) { handler }] *)
Definition try_catch {A : Type} (body : M A) (handler : Exn -> M A) : M A :=
  fun w =>
    match body w with
    | (Throw e, w') => handler e w'
    | other => other
    end.

Definition get_errno : M Z := fun w => (Ret (errno w), w).

(** [v8::Isolate::GetCurrent()] *)
Definition GetCurrent : M (option Isolate) := fun w => (Ret (isolate w), w).

(** [isolate->ThrowException(v)] on the current isolate: the exception is
    scheduled and the C++ caller carries on. *)
Definition ThrowException (v : JsValue) : M unit :=
  fun w =>
    (Ret tt,
     {| errno := errno w; disk := disk w;
        isolate := Some {| pending := Some v |};
        engine_calls := engine_calls w; js_calls := js_calls w |}).

(** [callback->Call(argc, argv)] *)
Definition Call (callback : JsFunction) (argv : list JsValue) : M unit :=
  fun w =>
    (Ret tt,
     {| errno := errno w; disk := disk w; isolate := isolate w;
        engine_calls := engine_calls w;
        js_calls := js_calls w ++ [(callback, argv)] |}).

(** Run an engine operation: note the call, hand the engine [errno] and the
    disk, and store what it leaves. *)
Definition engine_op {A : Type} (c : EngineCall)
  (op : Z * Disk -> A * (Z * Disk)) : M A :=
  fun w =>
    let '(a, (errno', disk')) := op (errno w, disk w) in
    (Ret a,
     {| errno := errno'; disk := disk'; isolate := isolate w;
        engine_calls := engine_calls w ++ [c]; js_calls := js_calls w |}).

(** Work queued on the thread pool runs on another thread: that thread has
    no isolate, and [errno] is per thread, so the work starts from the pool
    thread's own [errno], [thread_errno].  Afterwards the event-loop thread
    continues with its own isolate and [errno]. *)
Definition pool_view (thread_errno : Z) (w : World) : World :=
  {| errno := thread_errno; disk := disk w; isolate := None;
     engine_calls := engine_calls w; js_calls := js_calls w |}.

Definition on_pool_thread {A : Type} (thread_errno : Z) (m : M A) : M A :=
  fun w =>
    let '(r, w') := m (pool_view thread_errno w) in
    (r,
     {| errno := errno w; disk := disk w'; isolate := isolate w;
        engine_calls := engine_calls w'; js_calls := js_calls w' |}).

End Monad.

Declare Scope cpp_scope.
Delimit Scope cpp_scope with cpp.
Notation "x <- m ;; k" := (bind m (fun x => k))
  (at level 100, m at next level, right associativity) : cpp_scope.
Notation "m ;;; k" := (bind m (fun _ => k))
  (at level 100, right associativity) : cpp_scope.
Local Open Scope cpp_scope.

(* ------------------------------------------------------------------ *)
(** * Nan::AsyncWorker *)

(** The base class of both workers, from the external header [nan.h]: it
    keeps the callback and the error message, and [WorkComplete] picks the
    handler by the message being null or not. *)
Module AsyncWorker.

Record t : Type := mk {
  callback : JsFunction;
  errmsg_ : cstr
}.

Definition new (callback_ : JsFunction) : t :=
  {| callback := callback_; errmsg_ := None |}.

(** [SetErrorMessage(const char *msg)] copies [msg] with [strlen]/[memcpy];
    a null [msg] is dereferenced. *)
Definition SetErrorMessage {E : Engine} (this : t) (msg : cstr) : M t :=
  match msg with
  | Some s => ret {| callback := callback this; errmsg_ := Some s |}
  | None => crash
  end.

Definition ErrorMessage (this : t) : cstr := errmsg_ this.

(** [Nan::Error(const char *msg)] builds the message string from [msg]. *)
Definition Nan_Error {E : Engine} (msg : cstr) : M JsValue :=
  match msg with
  | Some s => ret (JsError s)
  | None => crash
  end.

(** [Nan::ErrnoException(errorno, syscall)] with a pointer taken from a
    member: the system-call name is read through the pointer, which a null
    pointer allows and a pointer to nowhere does not. *)
Definition Nan_ErrnoException {E : Engine} (errorno : Z) (syscall : char_ptr)
  : M JsValue :=
  match syscall with
  | Pointing s => ret (JsErrnoException errorno s)
  | Wild => crash
  end.

(** The default [HandleErrorCallback]: one argument, an [Error] made of the
    message. *)
Definition HandleErrorCallback {E : Engine} (this : t) : M unit :=
  err <- Nan_Error (ErrorMessage this) ;;
  Call (callback this) [err].

End AsyncWorker.

(** The virtual interface of a worker class. *)
Class Worker {E : Engine} (W : Type) : Type := {
  base : W -> AsyncWorker.t;
  Execute : W -> M W;
  HandleOKCallback : W -> M unit;
  HandleErrorCallback : W -> M unit
}.

(** [AsyncWorker::WorkComplete] *)
Definition WorkComplete {E : Engine} {W : Type} {C : Worker W} (worker : W)
  : M unit :=
  match AsyncWorker.errmsg_ (base worker) with
  | None => HandleOKCallback worker
  | Some _ => HandleErrorCallback worker
  end.

(** [Nan::AsyncQueueWorker(worker)], from submission to completion:
    [Execute] on the pool thread that picks the work up, whose [errno] is
    [thread_errno], then [WorkComplete] on the event loop. *)
Definition AsyncQueueWorker {E : Engine} {W : Type} {C : Worker W}
  (worker : W) (thread_errno : Z) : M unit :=
  worker' <- on_pool_thread thread_errno (Execute worker) ;;
  WorkComplete worker'.

(* ------------------------------------------------------------------ *)
(** * [class ExtractWorker : public Nan::AsyncWorker] *)

Module ExtractWorker.

Record t : Type := mk {
  super : AsyncWorker.t;
  m_Archive : Archive;
  m_File : option File;
  m_OutputDirectory : string
}.

Definition new (archive : Archive) (file : option File)
  (outputrDirectory : string) (appCallback : JsFunction) : t :=
  {| super := AsyncWorker.new appCallback;
     m_Archive := archive;
     m_File := file;
     m_OutputDirectory := outputrDirectory |}.

(** The lambda [[](int, std::string) { return true; }] given to the engine's
    [extractAll]. *)
Definition progress : Z -> string -> bool := fun _ _ => true.

Section Methods.
Context {E : Engine}.

Definition Execute (this : t) : M t :=
  code <-
    match m_File this with
    | Some file =>
        engine_op (CallExtract file (m_OutputDirectory this))
          (Archive_extract (m_Archive this) file (m_OutputDirectory this))
    | None =>
        engine_op (CallExtractAll (m_OutputDirectory this) progress)
          (Archive_extractAll (m_Archive this) (m_OutputDirectory this)
             progress)
    end ;;
  if negb (code_eqb code ERROR_NONE) then
    s <- AsyncWorker.SetErrorMessage (super this) (convertErrorCode code) ;;
    ret {| super := s; m_Archive := m_Archive this; m_File := m_File this;
           m_OutputDirectory := m_OutputDirectory this |}
  else ret this.

Definition HandleOKCallback (this : t) : M unit :=
  Call (AsyncWorker.callback (super this)) [JsNull].

#[global] Instance worker : Worker t := {
  base := super;
  Execute := Execute;
  HandleOKCallback := HandleOKCallback;
  HandleErrorCallback := fun this => AsyncWorker.HandleErrorCallback (super this)
}.

End Methods.
End ExtractWorker.

(* ------------------------------------------------------------------ *)
(** * [class BSArchive] *)

Module BSArchive.

Definition t : Type := BSArchive_t.

Section Methods.
Context {E : Engine}.

(** The error [read] and [write] raise when called directly: errno-based for
    the two OS-resource codes, descriptive for the rest. *)
Definition direct_error (err : EErrorCode) (sysCall : string) : M JsValue :=
  if is_os_error err
  then e <- get_errno ;; ret (JsErrnoException e (Some sysCall))
  else AsyncWorker.Nan_Error (convertErrorCode err).

Definition write (this : t) : M unit :=
  err <- engine_op (CallWrite (m_Name this))
           (Archive_write (m_Name this) (m_Wrapped this)) ;;
  if negb (code_eqb err ERROR_NONE) then
    isolate_ <- GetCurrent ;;
    match isolate_ with
    | None =>
        e <- get_errno ;;
        throw (ExBSA (BSAException.new err (Some "write") e))
    | Some _ =>
        v <- direct_error err "write" ;;
        ThrowException v
    end
  else ret tt.

Definition getRoot (this : t) : BSAFolder.t :=
  BSAFolder.new (Archive_.getRoot (m_Wrapped this)).

Definition getType (this : t) : cstr :=
  match Archive_.getType (m_Wrapped this) with
  | TYPE_OBLIVION => Some "oblivion"
  | TYPE_SKYRIM => Some "skyrim"
  | _ => None
  end.

(** [read] fills the wrapped archive in, so the object comes back with it. *)
Definition read (this : t) (fileName : string) (testHashes : bool) : M t :=
  r <- engine_op (CallRead (toWC fileName) testHashes)
         (Archive_read (toWC fileName) testHashes (m_Wrapped this)) ;;
  match r with
  | ReadRaises what => throw (ExStd what)
  | ReadReturns err ar =>
      let this' := {| m_Wrapped := ar; m_Name := m_Name this |} in
      if negb (code_eqb err ERROR_NONE) then
        isolate_ <- GetCurrent ;;
        match isolate_ with
        | None =>
            e <- get_errno ;;
            throw (ExBSA (BSAException.new err (Some "write") e))
        | Some _ =>
            v <- direct_error err "write" ;;
            ThrowException v ;;;
            ret this'
        end
      else ret this'
  end.

(** [BSArchive(const char *fileName, bool testHashes, bool create)] *)
Definition new (fileName : string) (testHashes create : bool) : M t :=
  let this := {| m_Wrapped := Archive_new; m_Name := fileName |} in
  if negb create then read this fileName testHashes else ret this.

(** The two extract methods queue a worker; the [Z] they still take is the
    [errno] of the pool thread that runs it. *)
Definition extractFile (this : t) (file : BSAFile.t)
  (outputDirectory : string) (callback : JsFunction) : Z -> M unit :=
  AsyncQueueWorker
    (ExtractWorker.new (m_Wrapped this) (BSAFile.getWrappee file)
       outputDirectory callback).

Definition extractAll (this : t) (outputDirectory : string)
  (callback : JsFunction) : Z -> M unit :=
  AsyncQueueWorker
    (ExtractWorker.new (m_Wrapped this) None outputDirectory callback).

Definition createFile (this : t) (name sourcePath : string)
  (compressed : bool) : BSAFile.t :=
  BSAFile.new
    (Some (Archive_.createFile (m_Wrapped this) name sourcePath compressed)).

End Methods.
End BSArchive.

(* ------------------------------------------------------------------ *)
(** * [class LoadWorker : public Nan::AsyncWorker] *)

Module LoadWorker.

Record t : Type := mk {
  super : AsyncWorker.t;
  m_Result : option BSArchive.t;
  m_OutputDirectory : string;
  m_ErrorCode : EErrorCode;
  m_Errno : Z;
  m_SysCall : char_ptr;
  m_TestHashes : bool;
  m_Create : bool
}.

(** The constructor initialises [m_OutputDirectory], [m_TestHashes] and
    [m_Create] only.  The other four members keep whatever the fresh
    allocation held; [Indeterminate] is that content.  The code and the
    error number can be any value.  [mem_Result] is [None] when the bits are
    no pointer to an archive (null or nowhere), which [HandleOKCallback]
    cannot dereference.  [mem_SysCall] may be null, a string, or a pointer
    to nowhere ([Wild]). *)
Record Indeterminate : Type := mkIndeterminate {
  mem_Result : option BSArchive.t;
  mem_ErrorCode : EErrorCode;
  mem_Errno : Z;
  mem_SysCall : char_ptr
}.

Definition new (fileName : string) (testHashes create : bool)
  (appCallback : JsFunction) (mem : Indeterminate) : t :=
  {| super := AsyncWorker.new appCallback;
     m_Result := mem_Result mem;
     m_OutputDirectory := fileName;
     m_ErrorCode := mem_ErrorCode mem;
     m_Errno := mem_Errno mem;
     m_SysCall := mem_SysCall mem;
     m_TestHashes := testHashes;
     m_Create := create |}.

Section Methods.
Context {E : Engine}.

Definition Execute (this : t) : M t :=
  try_catch
    (a <- BSArchive.new (m_OutputDirectory this) (m_TestHashes this)
            (m_Create this) ;;
     ret {| super := super this; m_Result := Some a;
            m_OutputDirectory := m_OutputDirectory this;
            m_ErrorCode := m_ErrorCode this; m_Errno := m_Errno this;
            m_SysCall := m_SysCall this;
            m_TestHashes := m_TestHashes this; m_Create := m_Create this |})
    (fun exn =>
       match exn with
       | ExBSA e =>
           s <- AsyncWorker.SetErrorMessage (super this) (BSAException.what e) ;;
           ret {| super := s; m_Result := m_Result this;
                  m_OutputDirectory := m_OutputDirectory this;
                  m_ErrorCode := BSAException.code e;
                  m_Errno := BSAException.sysError e;
                  m_SysCall := Pointing (BSAException.sysCall e);
                  m_TestHashes := m_TestHashes this;
                  m_Create := m_Create this |}
       | ExStd what =>
           s <- AsyncWorker.SetErrorMessage (super this) (Some what) ;;
           ret {| super := s; m_Result := m_Result this;
                  m_OutputDirectory := m_OutputDirectory this;
                  m_ErrorCode := m_ErrorCode this; m_Errno := m_Errno this;
                  m_SysCall := m_SysCall this;
                  m_TestHashes := m_TestHashes this;
                  m_Create := m_Create this |}
       end).

Definition HandleOKCallback (this : t) : M unit :=
  match m_Result this with
  | Some a => Call (AsyncWorker.callback (super this)) [JsNull; JsArchive a]
  | None => crash
  end.

Definition HandleErrorCallback (this : t) : M unit :=
  err <-
    (if is_os_error (m_ErrorCode this)
     then AsyncWorker.Nan_ErrnoException (m_Errno this) (m_SysCall this)
     else AsyncWorker.Nan_Error (AsyncWorker.ErrorMessage (super this))) ;;
  Call (AsyncWorker.callback (super this)) [err].

#[global] Instance worker : Worker t := {
  base := super;
  Execute := Execute;
  HandleOKCallback := HandleOKCallback;
  HandleErrorCallback := HandleErrorCallback
}.

End Methods.
End LoadWorker.

Section EntryPoints.
Context {E : Engine}.

(** [loadBSA(fileName, testHashes, callback)]; [mem] is the content of the
    worker's uninitialised members, and the last argument is the [errno] of
    the pool thread that runs the work. *)
Definition loadBSA (fileName : string) (testHashes : bool)
  (callback : JsFunction) (mem : LoadWorker.Indeterminate) : Z -> M unit :=
  AsyncQueueWorker (LoadWorker.new fileName testHashes false callback mem).

(** [createBSA(fileName, callback)] *)
Definition createBSA (fileName : string) (callback : JsFunction)
  (mem : LoadWorker.Indeterminate) : Z -> M unit :=
  AsyncQueueWorker (LoadWorker.new fileName false true callback mem).

End EntryPoints.

(* ------------------------------------------------------------------ *)
(** * A reference engine *)

(** Modelled from the spec: the engine itself is outside the source tree.
    This small engine follows what the spec says of it and is used to run the
    layer on concrete inputs: [read] reports file-not-found (with [ENOENT])
    for a path that is not on disk, invalid-data for a file that is no
    container and invalid-hashes when hash testing is asked for and fails;
    [write] checks every staged external source and reports
    source-file-missing; [extractAll] consults the progress predicate per
    file and reports canceled when it says no. *)
Module RefEngine.

Inductive Entry : Type :=
| PlainFile (size : Z)
| Container (ar : Archive) (hashes_ok : bool)
| Unreadable (what : string).

Definition disk_t : Type := list (string * Entry).

Definition ENOENT : Z := 2.

Fixpoint lookup (path : string) (d : disk_t) : option Entry :=
  match d with
  | [] => None
  | (p, e) :: rest => if String.eqb p path then Some e else lookup path rest
  end.

Definition on_disk (d : disk_t) (path : string) : bool :=
  match lookup path d with Some _ => true | None => false end.

Fixpoint all_files (f : Folder) : list File :=
  match f with
  | mkFolder _ _ subs fs => fs ++ flat_map all_files subs
  end.

Definition source_available (d : disk_t) (f : File) : bool :=
  match file_source f with
  | InContainer _ => true
  | ExternalPath p => on_disk d p
  end.

Definition read (path : string) (testHashes : bool) (ar : Archive)
  (s : Z * disk_t) : ReadOutcome * (Z * disk_t) :=
  match lookup path (snd s) with
  | None => (ReadReturns ERROR_FILENOTFOUND ar, (ENOENT, snd s))
  | Some (PlainFile _) => (ReadReturns ERROR_INVALIDDATA ar, s)
  | Some (Container stored ok) =>
      if testHashes && negb ok
      then (ReadReturns ERROR_INVALIDHASHES ar, s)
      else (ReadReturns ERROR_NONE stored, s)
  | Some (Unreadable what) => (ReadRaises what, s)
  end.

Definition write (path : string) (ar : Archive) (s : Z * disk_t)
  : EErrorCode * (Z * disk_t) :=
  if forallb (source_available (snd s)) (all_files (ar_root ar))
  then (ERROR_NONE, (fst s, (path, Container ar true) :: snd s))
  else (ERROR_SOURCEFILEMISSING, s).

Definition out_path (dir : string) (f : File) : string :=
  dir ++ "/" ++ file_path f.

Definition extract (ar : Archive) (f : File) (dir : string) (s : Z * disk_t)
  : EErrorCode * (Z * disk_t) :=
  (ERROR_NONE, (fst s, (out_path dir f, PlainFile (file_size f)) :: snd s)).

Fixpoint extract_each (fs : list File) (index : Z) (dir : string)
  (progress : Z -> string -> bool) (s : Z * disk_t) : EErrorCode * (Z * disk_t) :=
  match fs with
  | [] => (ERROR_NONE, s)
  | f :: rest =>
      if progress index (file_name f)
      then extract_each rest (index + 1) dir progress
             (fst s, (out_path dir f, PlainFile (file_size f)) :: snd s)
      else (ERROR_CANCELED, s)
  end.

Definition extractAll (ar : Archive) (dir : string)
  (progress : Z -> string -> bool) (s : Z * disk_t) : EErrorCode * (Z * disk_t) :=
  extract_each (all_files (ar_root ar)) 0 dir progress s.

Definition empty_archive : Archive :=
  {| ar_root := mkFolder "" "" [] []; ar_type := TYPE_SKYRIM |}.

Definition engine : Engine := {|
  Disk := disk_t;
  Archive_new := empty_archive;
  toWC := fun s => s;
  Archive_read := read;
  Archive_write := write;
  Archive_extract := extract;
  Archive_extractAll := extractAll
|}.

(** A main-thread world with the given disk and nothing logged. *)
Definition main_world (d : disk_t) : @World engine :=
  @mkWorld engine 0 d (Some {| pending := None |}) [] [].

(** The same on a thread without an isolate. *)
Definition pool_world (d : disk_t) : @World engine :=
  @mkWorld engine 0 d None [] [].

(** Sample data: two textures under [textures/armor], one mesh at the top. *)
Definition sample_file (name : string) (size : Z) : File :=
  {| file_name := name; file_path := name; file_size := size;
     file_source := InContainer 0; file_compressed := false |}.

Definition sample_root : Folder :=
  mkFolder "" ""
    [ mkFolder "textures" "textures"
        [ mkFolder "armor" "textures/armor" []
            [ sample_file "a.dds" 10; sample_file "b.dds" 20 ] ]
        [ sample_file "sky.dds" 5 ];
      mkFolder "meshes" "meshes" [] [] ]
    [ sample_file "readme.txt" 3 ].

Definition sample_archive : Archive :=
  {| ar_root := sample_root; ar_type := TYPE_OBLIVION |}.

Definition sample_disk : disk_t :=
  [ ("data.bsa", Container sample_archive false);
    ("notes.txt", PlainFile 12);
    ("huge.bsa", Unreadable "bad allocation") ].

Definition no_junk : LoadWorker.Indeterminate :=
  {| LoadWorker.mem_Result := None;
     LoadWorker.mem_ErrorCode := ERROR_NONE;
     LoadWorker.mem_Errno := 0;
     LoadWorker.mem_SysCall := Pointing None |}.

(** Members left over from an earlier, unrelated allocation. *)
Definition stale_junk : LoadWorker.Indeterminate :=
  {| LoadWorker.mem_Result := None;
     LoadWorker.mem_ErrorCode := ERROR_ACCESSFAILED;
     LoadWorker.mem_Errno := 13;
     LoadWorker.mem_SysCall := Pointing (Some "stale") |}.

(** An archive being assembled whose one staged file has no source on disk. *)
Definition staged_archive : BSArchive.t :=
  {| m_Wrapped :=
       {| ar_root :=
            mkFolder "" "" []
              [ Archive_.createFile empty_archive "a.txt" "missing/a.txt"
                  false ];
          ar_type := TYPE_SKYRIM |};
     m_Name := "out.bsa" |}.

End RefEngine.

(** Modelled from the spec: the reference engine on an output directory
    that cannot be written to.  Both extract operations answer access-failed
    and leave [EACCES] in [errno]; everything else is as in [RefEngine]. *)
Module DeniedEngine.

Definition EACCES : Z := 13.

Definition extract (ar : Archive) (f : File) (dir : string)
  (s : Z * RefEngine.disk_t) : EErrorCode * (Z * RefEngine.disk_t) :=
  (ERROR_ACCESSFAILED, (EACCES, snd s)).

Definition extractAll (ar : Archive) (dir : string)
  (progress : Z -> string -> bool) (s : Z * RefEngine.disk_t)
  : EErrorCode * (Z * RefEngine.disk_t) :=
  (ERROR_ACCESSFAILED, (EACCES, snd s)).

Definition engine : Engine := {|
  Disk := RefEngine.disk_t;
  Archive_new := RefEngine.empty_archive;
  toWC := fun s => s;
  Archive_read := RefEngine.read;
  Archive_write := RefEngine.write;
  Archive_extract := extract;
  Archive_extractAll := extractAll
|}.

Definition main_world (d : RefEngine.disk_t) : @World engine :=
  @mkWorld engine 0 d (Some {| pending := None |}) [] [].

End DeniedEngine.

(* ------------------------------------------------------------------ *)
(** * Vocabulary for the statements *)

Section Vocabulary.
Context {E : Engine}.

(** The world after one engine I/O call [c] that left [errno'] and [disk']. *)
Definition after_engine_call (w : World) (c : EngineCall) (errno' : Z)
  (disk' : Disk) : World :=
  {| errno := errno'; disk := disk'; isolate := isolate w;
     engine_calls := engine_calls w ++ [c]; js_calls := js_calls w |}.

(** The world with [v] scheduled as the isolate's exception. *)
Definition with_exception (w : World) (v : JsValue) : World :=
  {| errno := errno w; disk := disk w;
     isolate := Some {| pending := Some v |};
     engine_calls := engine_calls w; js_calls := js_calls w |}.

(** The engine's answer to an extract request submitted from world [w]:
    single-file extract for a file, extract-all without one. *)
Definition extract_answer (ar : Archive) (file : option File) (dir : string)
  (w : World) : EErrorCode * (Z * Disk) :=
  match file with
  | Some f => Archive_extract ar f dir (errno w, disk w)
  | None => Archive_extractAll ar dir ExtractWorker.progress (errno w, disk w)
  end.

Definition extract_code (ar : Archive) (file : option File) (dir : string)
  (w : World) : EErrorCode :=
  fst (extract_answer ar file dir w).

(** The world once a submission has completed: the engine calls [cs] were
    made and left [disk'], and [callback] was called once with [argv]; the
    event-loop thread's [errno] and isolate are as before. *)
Definition after_submission (w : World) (disk' : Disk) (cs : list EngineCall)
  (callback : JsFunction) (argv : list JsValue) : World :=
  {| errno := errno w; disk := disk'; isolate := isolate w;
     engine_calls := engine_calls w ++ cs;
     js_calls := js_calls w ++ [(callback, argv)] |}.

(** The engine call an extract worker makes. *)
Definition extract_call (file : option File) (dir : string) : EngineCall :=
  match file with
  | Some f => CallExtract f dir
  | None => CallExtractAll dir ExtractWorker.progress
  end.

(** What the engine's [read] answers to a load submitted from world [w]. *)
Definition load_outcome (fileName : string) (testHashes : bool) (w : World)
  : ReadOutcome :=
  fst (Archive_read (toWC fileName) testHashes Archive_new (errno w, disk w)).

End Vocabulary.

(** The file handles a caller can hold: [BSAFile] has no constructor on the
    JavaScript side, so a handle comes out of [BSAFolder::getFile] or out of
    [BSArchive::createFile]. *)
Inductive issued : BSAFile.t -> Prop :=
| issued_getFile (folder : BSAFolder.t) (index : Z) (file : BSAFile.t) :
    BSAFolder.getFile folder index = Some file -> issued file
| issued_createFile (this : BSArchive.t) (name sourcePath : string)
    (compressed : bool) :
    issued (BSArchive.createFile this name sourcePath compressed).

(** Sum of a list of counts. *)
Definition sum_counts (l : list Z) : Z := fold_right Z.add 0 l.

(* ------------------------------------------------------------------ *)
(** * Running the layer on concrete inputs *)

Example load_existing_archive :
  js_calls (snd (loadBSA "data.bsa" false 7%nat RefEngine.no_junk 0
                   (RefEngine.main_world RefEngine.sample_disk)))
  = [(7%nat, [JsNull;
              JsArchive {| m_Wrapped := RefEngine.sample_archive;
                           m_Name := "data.bsa" |}])].
Proof. reflexivity. Qed.

Example load_with_bad_hashes :
  js_calls (snd (loadBSA "data.bsa" true 7%nat RefEngine.no_junk 0
                   (RefEngine.main_world RefEngine.sample_disk)))
  = [(7%nat, [JsError "invalid hashes"])].
Proof. reflexivity. Qed.

Example load_plain_file :
  js_calls (snd (loadBSA "notes.txt" false 7%nat RefEngine.no_junk 0
                   (RefEngine.main_world RefEngine.sample_disk)))
  = [(7%nat, [JsError "invalid data"])].
Proof. reflexivity. Qed.

Example count_sample_root :
  BSAFolder.countFiles (BSAFolder.new RefEngine.sample_root) = 4.
Proof. reflexivity. Qed.

(* ------------------------------------------------------------------ *)
(** * Error taxonomy *)

Lemma code_eqb_true (a b : EErrorCode) : code_eqb a b = true <-> a = b.
Proof.
  unfold code_eqb. destruct (EErrorCode_eq_dec a b); split; congruence.
Qed.

Lemma code_eqb_false (a b : EErrorCode) : code_eqb a b = false <-> a <> b.
Proof.
  unfold code_eqb. destruct (EErrorCode_eq_dec a b); split; congruence.
Qed.

Lemma is_os_error_true (c : EErrorCode) :
  is_os_error c = true <-> c = ERROR_ACCESSFAILED \/ c = ERROR_FILENOTFOUND.
Proof.
  unfold is_os_error. rewrite orb_true_iff, !code_eqb_true. tauto.
Qed.

Lemma is_os_error_false (c : EErrorCode) :
  is_os_error c = false <->
  c <> ERROR_ACCESSFAILED /\ c <> ERROR_FILENOTFOUND.
Proof.
  unfold is_os_error. rewrite orb_false_iff, !code_eqb_false. tauto.
Qed.

Lemma convertErrorCode_null (c : EErrorCode) :
  convertErrorCode c = None <-> c = ERROR_NONE.
Proof. destruct c; cbn; split; congruence. Qed.

Lemma convertErrorCode_message (c : EErrorCode) :
  c <> ERROR_NONE -> exists msg, convertErrorCode c = Some msg.
Proof.
  intros Hc. destruct (convertErrorCode c) as [msg|] eqn:Hm.
  - now exists msg.
  - apply convertErrorCode_null in Hm. contradiction.
Qed.

(** C2.  [convertErrorCode] is defined on every engine code and agrees with
    the taxonomy table: the seven failure codes get their fixed description,
    the success code gets no message (null) and no other code does, and a
    code outside the closed set gets "unknown". *)
Theorem convertErrorCode_total_mapping (c : EErrorCode) :
  convertErrorCode c = description c
  /\ (convertErrorCode c = None <-> c = ERROR_NONE)
  /\ (~ In c named_codes -> convertErrorCode c = Some "unknown").
Proof.
  split; [|split].
  - destruct c; reflexivity.
  - apply convertErrorCode_null.
  - intros Hout. destruct c; try reflexivity;
      exfalso; apply Hout; unfold named_codes; cbn; tauto.
Qed.

Lemma convertErrorCode_total_mapping_witness :
  convertErrorCode (ERROR_UNNAMED 99) = Some "unknown"
  /\ convertErrorCode ERROR_ZLIBINITFAILED = Some "zlib init failed"
  /\ convertErrorCode ERROR_NONE = None.
Proof.
  split; [|split].
  - apply (proj2 (proj2 (convertErrorCode_total_mapping (ERROR_UNNAMED 99)))).
    cbn. intros H.
    repeat (destruct H as [H|H]; [discriminate H|]). exact H.
  - rewrite (proj1 (convertErrorCode_total_mapping ERROR_ZLIBINITFAILED)).
    reflexivity.
  - apply (proj2 (proj1 (proj2 (convertErrorCode_total_mapping ERROR_NONE)))).
    reflexivity.
Defined.

(* ------------------------------------------------------------------ *)
(** * Format variant *)

(** C5.  [getType] answers "oblivion" for the Oblivion variant, "skyrim" for
    the Skyrim variant, which is also what the Fallout 3 and Fallout NV
    names denote, and null for every other variant the engine reports. *)
Theorem getType_variants (this : BSArchive.t) :
  (ar_type (m_Wrapped this) = TYPE_OBLIVION ->
   BSArchive.getType this = Some "oblivion")
  /\ (ar_type (m_Wrapped this) = TYPE_SKYRIM ->
      BSArchive.getType this = Some "skyrim")
  /\ (ar_type (m_Wrapped this) = TYPE_FALLOUT3 ->
      BSArchive.getType this = Some "skyrim")
  /\ (ar_type (m_Wrapped this) = TYPE_FALLOUTNV ->
      BSArchive.getType this = Some "skyrim")
  /\ (ar_type (m_Wrapped this) <> TYPE_OBLIVION ->
      ar_type (m_Wrapped this) <> TYPE_SKYRIM ->
      BSArchive.getType this = None).
Proof.
  unfold BSArchive.getType, Archive_.getType, TYPE_FALLOUT3, TYPE_FALLOUTNV.
  destruct (ar_type (m_Wrapped this));
    repeat split; intros; try reflexivity; congruence.
Qed.

Lemma getType_variants_witness :
  BSArchive.getType
    {| m_Wrapped := RefEngine.sample_archive; m_Name := "data.bsa" |}
  = Some "oblivion"
  /\ BSArchive.getType
       {| m_Wrapped := RefEngine.empty_archive; m_Name := "new.bsa" |}
     = Some "skyrim"
  /\ BSArchive.getType
       {| m_Wrapped := {| ar_root := RefEngine.sample_root;
                          ar_type := TYPE_UNNAMED 0 |};
          m_Name := "morrowind.bsa" |}
     = None.
Proof.
  split; [|split].
  - apply (proj1 (getType_variants _)). reflexivity.
  - apply (proj1 (proj2 (proj2 (getType_variants _)))). reflexivity.
  - apply (proj2 (proj2 (proj2 (proj2 (getType_variants _)))));
      cbn; discriminate.
Defined.

(* ------------------------------------------------------------------ *)
(** * [BSArchive::write] *)

Section WriteSignalling.
Context {E : Engine}.

(** [write] with the engine's answer made explicit. *)
Lemma write_unfold (this : BSArchive.t) (w : World) (err : EErrorCode)
  (e' : Z) (d' : Disk) :
  Archive_write (m_Name this) (m_Wrapped this) (errno w, disk w)
  = (err, (e', d')) ->
  BSArchive.write this w =
  let w' := after_engine_call w (CallWrite (m_Name this)) e' d' in
  if negb (code_eqb err ERROR_NONE) then
    match isolate w with
    | None => (Throw (ExBSA (BSAException.mk err e' (Some "write"))), w')
    | Some _ =>
        if is_os_error err
        then (Ret tt, with_exception w' (JsErrnoException e' (Some "write")))
        else match convertErrorCode err with
             | Some msg => (Ret tt, with_exception w' (JsError msg))
             | None => (Crash, w')
             end
    end
  else (Ret tt, w').
Proof.
  intros Heng.
  unfold BSArchive.write, bind, engine_op, after_engine_call, with_exception.
  rewrite Heng. cbn.
  destruct (code_eqb err ERROR_NONE); cbn; [reflexivity|].
  destruct (isolate w); cbn; [|reflexivity].
  unfold BSArchive.direct_error.
  destruct (is_os_error err); cbn; [reflexivity|].
  destruct (convertErrorCode err); reflexivity.
Qed.

(** C3.  Let the engine's write answer [err].  On the success code [write]
    returns with nothing signalled.  On any other code: without an isolate
    it throws a [BSAException] carrying [err], the current [errno] and the
    system-call name "write"; with an isolate it returns after scheduling an
    errno-based error for access-failed and file-not-found, and an error
    with the fixed description for every other code. *)
Theorem write_signals_failure (this : BSArchive.t) (w : World)
  (err : EErrorCode) (e' : Z) (d' : Disk) :
  Archive_write (m_Name this) (m_Wrapped this) (errno w, disk w)
  = (err, (e', d')) ->
  let w' := after_engine_call w (CallWrite (m_Name this)) e' d' in
  (err = ERROR_NONE -> BSArchive.write this w = (Ret tt, w'))
  /\ (err <> ERROR_NONE -> isolate w = None ->
      BSArchive.write this w
      = (Throw (ExBSA (BSAException.mk err e' (Some "write"))), w'))
  /\ (err = ERROR_ACCESSFAILED \/ err = ERROR_FILENOTFOUND ->
      isolate w <> None ->
      BSArchive.write this w
      = (Ret tt, with_exception w' (JsErrnoException e' (Some "write"))))
  /\ (err <> ERROR_NONE -> err <> ERROR_ACCESSFAILED ->
      err <> ERROR_FILENOTFOUND -> isolate w <> None ->
      exists msg,
        convertErrorCode err = Some msg
        /\ BSArchive.write this w = (Ret tt, with_exception w' (JsError msg))).
Proof.
  intros Heng w'. rewrite (write_unfold _ _ _ _ _ Heng). fold w'.
  repeat split.
  - intros ->. reflexivity.
  - intros Hne Hiso. apply code_eqb_false in Hne. rewrite Hne, Hiso.
    reflexivity.
  - intros Hos Hiso.
    assert (Hne : code_eqb err ERROR_NONE = false)
      by (apply code_eqb_false; destruct Hos; subst; discriminate).
    apply is_os_error_true in Hos. rewrite Hne, Hos. cbn.
    destruct (isolate w); [reflexivity | contradiction].
  - intros Hne Haf Hfnf Hiso.
    destruct (convertErrorCode_message err Hne) as [msg Hmsg].
    exists msg. split; [exact Hmsg|].
    apply code_eqb_false in Hne. rewrite Hne. cbn.
    destruct (isolate w); [|contradiction].
    assert (Hos : is_os_error err = false)
      by (apply is_os_error_false; split; assumption).
    rewrite Hos, Hmsg. reflexivity.
Qed.

End WriteSignalling.

Lemma write_signals_failure_witness :
  BSArchive.write (E := RefEngine.engine) RefEngine.staged_archive
    (RefEngine.pool_world [])
  = (Throw (ExBSA (BSAException.mk ERROR_SOURCEFILEMISSING 0 (Some "write"))),
     after_engine_call (RefEngine.pool_world []) (CallWrite "out.bsa") 0 []).
Proof.
  apply (proj1 (proj2
    (write_signals_failure (E := RefEngine.engine) RefEngine.staged_archive
       (RefEngine.pool_world []) ERROR_SOURCEFILEMISSING 0 [] eq_refl))).
  - discriminate.
  - reflexivity.
Defined.

Example write_direct_missing_source :
  isolate (snd (BSArchive.write (E := RefEngine.engine) RefEngine.staged_archive
                  (RefEngine.main_world [])))
  = Some {| pending := Some (JsError "source file missing") |}.
Proof. reflexivity. Qed.

(* ------------------------------------------------------------------ *)
(** * Extraction *)

Section Extraction.
Context {E : Engine}.

(** [Execute] makes the one engine call its file reference selects and
    leaves [convertErrorCode code] as the message: null on success, the
    description otherwise. *)
Lemma ExtractWorker_Execute_run (ar : Archive) (file : option File)
  (dir : string) (cb : JsFunction) (w : World) :
  ExtractWorker.Execute (ExtractWorker.new ar file dir cb) w
  = (Ret {| ExtractWorker.super :=
              {| AsyncWorker.callback := cb;
                 AsyncWorker.errmsg_ :=
                   convertErrorCode (extract_code ar file dir w) |};
            ExtractWorker.m_Archive := ar;
            ExtractWorker.m_File := file;
            ExtractWorker.m_OutputDirectory := dir |},
     after_engine_call w (extract_call file dir)
       (fst (snd (extract_answer ar file dir w)))
       (snd (snd (extract_answer ar file dir w)))).
Proof.
  unfold ExtractWorker.Execute, extract_code, extract_answer, extract_call,
    after_engine_call, bind, engine_op.
  destruct file as [f|]; cbn.
  - destruct (Archive_extract ar f dir (errno w, disk w))
      as [code [e' d']]; cbn.
    destruct (code_eqb code ERROR_NONE) eqn:Hc; cbn.
    + apply code_eqb_true in Hc. subst code. reflexivity.
    + apply code_eqb_false in Hc.
      destruct (convertErrorCode_message code Hc) as [msg Hmsg].
      rewrite Hmsg. reflexivity.
  - destruct (Archive_extractAll ar dir ExtractWorker.progress
                (errno w, disk w)) as [code [e' d']]; cbn.
    destruct (code_eqb code ERROR_NONE) eqn:Hc; cbn.
    + apply code_eqb_true in Hc. subst code. reflexivity.
    + apply code_eqb_false in Hc.
      destruct (convertErrorCode_message code Hc) as [msg Hmsg].
      rewrite Hmsg. reflexivity.
Qed.

(** The arguments an extract submission completes with; the engine runs
    from the pool thread's [errno]. *)
Lemma extract_submission (ar : Archive) (file : option File) (dir : string)
  (cb : JsFunction) (thread_errno : Z) (w : World) :
  AsyncQueueWorker (ExtractWorker.new ar file dir cb) thread_errno w
  = (Ret tt,
     after_submission w
       (snd (snd (extract_answer ar file dir (pool_view thread_errno w))))
       [extract_call file dir] cb
       [match convertErrorCode
                (extract_code ar file dir (pool_view thread_errno w)) with
        | None => JsNull
        | Some msg => JsError msg
        end]).
Proof.
  unfold AsyncQueueWorker, bind, on_pool_thread.
  cbn [Execute ExtractWorker.worker].
  pose proof (ExtractWorker_Execute_run ar file dir cb
                (pool_view thread_errno w)) as Hrun.
  unfold extract_code, extract_answer in *. cbn in Hrun. rewrite Hrun.
  unfold WorkComplete, after_engine_call, after_submission, pool_view. cbn.
  destruct (convertErrorCode _); reflexivity.
Qed.

End Extraction.

(* ------------------------------------------------------------------ *)
(** * Loading and creating *)

Section Loading.
Context {E : Engine}.

Ltac run_load Hread :=
  unfold LoadWorker.Execute, try_catch, BSArchive.new, BSArchive.read,
    engine_op, LoadWorker.new, after_engine_call;
  cbn; unfold bind; cbn; rewrite Hread; cbn.

(** Construction, successful read. *)
Lemma LoadWorker_Execute_ok (fileName : string) (testHashes : bool)
  (cb : JsFunction) (mem : LoadWorker.Indeterminate) (w : World)
  (ar : Archive) (e' : Z) (d' : Disk) :
  Archive_read (toWC fileName) testHashes Archive_new (errno w, disk w)
  = (ReadReturns ERROR_NONE ar, (e', d')) ->
  LoadWorker.Execute (LoadWorker.new fileName testHashes false cb mem) w
  = (Ret {| LoadWorker.super := AsyncWorker.new cb;
            LoadWorker.m_Result :=
              Some {| m_Wrapped := ar; m_Name := fileName |};
            LoadWorker.m_OutputDirectory := fileName;
            LoadWorker.m_ErrorCode := LoadWorker.mem_ErrorCode mem;
            LoadWorker.m_Errno := LoadWorker.mem_Errno mem;
            LoadWorker.m_SysCall := LoadWorker.mem_SysCall mem;
            LoadWorker.m_TestHashes := testHashes;
            LoadWorker.m_Create := false |},
     after_engine_call w (CallRead (toWC fileName) testHashes) e' d').
Proof.
  intros Hread. run_load Hread. reflexivity.
Qed.

(** Construction without an isolate, the engine answers a failure code: the
    [BSAException] is caught and its three values are stored. *)
Lemma LoadWorker_Execute_code (fileName : string) (testHashes : bool)
  (cb : JsFunction) (mem : LoadWorker.Indeterminate) (w : World)
  (err : EErrorCode) (ar : Archive) (e' : Z) (d' : Disk) (msg : string) :
  isolate w = None ->
  Archive_read (toWC fileName) testHashes Archive_new (errno w, disk w)
  = (ReadReturns err ar, (e', d')) ->
  convertErrorCode err = Some msg ->
  LoadWorker.Execute (LoadWorker.new fileName testHashes false cb mem) w
  = (Ret {| LoadWorker.super :=
              {| AsyncWorker.callback := cb;
                 AsyncWorker.errmsg_ := Some msg |};
            LoadWorker.m_Result := LoadWorker.mem_Result mem;
            LoadWorker.m_OutputDirectory := fileName;
            LoadWorker.m_ErrorCode := err;
            LoadWorker.m_Errno := e';
            LoadWorker.m_SysCall := Pointing (Some "write");
            LoadWorker.m_TestHashes := testHashes;
            LoadWorker.m_Create := false |},
     after_engine_call w (CallRead (toWC fileName) testHashes) e' d').
Proof.
  intros Hiso Hread Hmsg.
  assert (Hne : code_eqb err ERROR_NONE = false).
  { apply code_eqb_false. intros ->. discriminate Hmsg. }
  run_load Hread. rewrite Hne. cbn.
  unfold GetCurrent. cbn. rewrite Hiso. cbn.
  unfold BSAException.what. cbn. rewrite Hmsg. reflexivity.
Qed.

(** Construction raises some other [std::exception]: only the message is
    stored; the code, the errno and the system-call name keep what the
    allocation held. *)
Lemma LoadWorker_Execute_raise (fileName : string) (testHashes : bool)
  (cb : JsFunction) (mem : LoadWorker.Indeterminate) (w : World)
  (what : string) (e' : Z) (d' : Disk) :
  Archive_read (toWC fileName) testHashes Archive_new (errno w, disk w)
  = (ReadRaises what, (e', d')) ->
  LoadWorker.Execute (LoadWorker.new fileName testHashes false cb mem) w
  = (Ret {| LoadWorker.super :=
              {| AsyncWorker.callback := cb;
                 AsyncWorker.errmsg_ := Some what |};
            LoadWorker.m_Result := LoadWorker.mem_Result mem;
            LoadWorker.m_OutputDirectory := fileName;
            LoadWorker.m_ErrorCode := LoadWorker.mem_ErrorCode mem;
            LoadWorker.m_Errno := LoadWorker.mem_Errno mem;
            LoadWorker.m_SysCall := LoadWorker.mem_SysCall mem;
            LoadWorker.m_TestHashes := testHashes;
            LoadWorker.m_Create := false |},
     after_engine_call w (CallRead (toWC fileName) testHashes) e' d').
Proof.
  intros Hread. run_load Hread. reflexivity.
Qed.

(** Creation never reaches the engine's [read]. *)
Lemma LoadWorker_Execute_create (fileName : string) (testHashes : bool)
  (cb : JsFunction) (mem : LoadWorker.Indeterminate) (w : World) :
  LoadWorker.Execute (LoadWorker.new fileName testHashes true cb mem) w
  = (Ret {| LoadWorker.super := AsyncWorker.new cb;
            LoadWorker.m_Result :=
              Some {| m_Wrapped := Archive_new; m_Name := fileName |};
            LoadWorker.m_OutputDirectory := fileName;
            LoadWorker.m_ErrorCode := LoadWorker.mem_ErrorCode mem;
            LoadWorker.m_Errno := LoadWorker.mem_Errno mem;
            LoadWorker.m_SysCall := LoadWorker.mem_SysCall mem;
            LoadWorker.m_TestHashes := testHashes;
            LoadWorker.m_Create := true |},
     w).
Proof. reflexivity. Qed.

Ltac run_submission Hexec :=
  unfold loadBSA, createBSA, AsyncQueueWorker, bind, on_pool_thread;
  cbn [Execute LoadWorker.worker];
  rewrite Hexec;
  unfold WorkComplete, after_engine_call, after_submission, pool_view; cbn.

Lemma load_submission_ok (fileName : string) (testHashes : bool)
  (cb : JsFunction) (mem : LoadWorker.Indeterminate) (thread_errno : Z)
  (w : World) (ar : Archive) (e' : Z) (d' : Disk) :
  Archive_read (toWC fileName) testHashes Archive_new (thread_errno, disk w)
  = (ReadReturns ERROR_NONE ar, (e', d')) ->
  loadBSA fileName testHashes cb mem thread_errno w
  = (Ret tt,
     after_submission w d' [CallRead (toWC fileName) testHashes] cb
       [JsNull; JsArchive {| m_Wrapped := ar; m_Name := fileName |}]).
Proof.
  intros Hread.
  pose proof (LoadWorker_Execute_ok fileName testHashes cb mem
                (pool_view thread_errno w) ar e' d' Hread) as Hexec.
  run_submission Hexec. reflexivity.
Qed.

Lemma load_submission_code (fileName : string) (testHashes : bool)
  (cb : JsFunction) (mem : LoadWorker.Indeterminate) (thread_errno : Z)
  (w : World) (err : EErrorCode) (ar : Archive) (e' : Z) (d' : Disk) :
  Archive_read (toWC fileName) testHashes Archive_new (thread_errno, disk w)
  = (ReadReturns err ar, (e', d')) ->
  err <> ERROR_NONE ->
  exists msg,
    convertErrorCode err = Some msg
    /\ loadBSA fileName testHashes cb mem thread_errno w
       = (Ret tt,
          after_submission w d' [CallRead (toWC fileName) testHashes] cb
            [if is_os_error err
             then JsErrnoException e' (Some "write")
             else JsError msg]).
Proof.
  intros Hread Hne.
  destruct (convertErrorCode_message err Hne) as [msg Hmsg].
  exists msg. split; [exact Hmsg|].
  pose proof (LoadWorker_Execute_code fileName testHashes cb mem
                (pool_view thread_errno w) err ar e' d' msg eq_refl Hread Hmsg)
    as Hexec.
  run_submission Hexec.
  unfold LoadWorker.HandleErrorCallback, bind. cbn.
  destruct (is_os_error err); reflexivity.
Qed.

(** When construction raises another exception, the handler classifies with
    members that nothing assigned.  What follows is what the embedding
    computes from their content; through a pointer to nowhere it stops. *)
Lemma load_submission_raise (fileName : string) (testHashes : bool)
  (cb : JsFunction) (mem : LoadWorker.Indeterminate) (thread_errno : Z)
  (w : World) (what : string) (e' : Z) (d' : Disk) :
  Archive_read (toWC fileName) testHashes Archive_new (thread_errno, disk w)
  = (ReadRaises what, (e', d')) ->
  forall s,
    LoadWorker.mem_SysCall mem = Pointing s ->
    loadBSA fileName testHashes cb mem thread_errno w
    = (Ret tt,
       after_submission w d' [CallRead (toWC fileName) testHashes] cb
         [if is_os_error (LoadWorker.mem_ErrorCode mem)
          then JsErrnoException (LoadWorker.mem_Errno mem) s
          else JsError what]).
Proof.
  intros Hread s Hs.
  pose proof (LoadWorker_Execute_raise fileName testHashes cb mem
                (pool_view thread_errno w) what e' d' Hread) as Hexec.
  run_submission Hexec.
  unfold LoadWorker.HandleErrorCallback, bind. cbn. rewrite Hs.
  destruct (is_os_error (LoadWorker.mem_ErrorCode mem)); reflexivity.
Qed.

Lemma create_submission (fileName : string) (cb : JsFunction)
  (mem : LoadWorker.Indeterminate) (thread_errno : Z) (w : World) :
  createBSA fileName cb mem thread_errno w
  = (Ret tt,
     after_submission w (disk w) [] cb
       [JsNull; JsArchive {| m_Wrapped := Archive_new; m_Name := fileName |}]).
Proof.
  pose proof (LoadWorker_Execute_create fileName false cb mem
                (pool_view thread_errno w)) as Hexec.
  run_submission Hexec. rewrite app_nil_r. reflexivity.
Qed.

End Loading.

(* ------------------------------------------------------------------ *)
(** * Completion handlers *)



(** C6.  [extractAll] runs the engine's extract-all with a progress
    predicate that answers true for every index and name: the worker's
    [Execute] and the whole submission end exactly as that engine run with
    this predicate dictates (its code, its [errno], its disk), after this one
    engine call and no other. *)
Theorem extractAll_progress_always_continues {E : Engine}
  (this : BSArchive.t) (dir : string) (cb : JsFunction) (thread_errno : Z)
  (w : World) :
  exists p : Z -> string -> bool,
    (forall index name, p index name = true)
    /\ ExtractWorker.Execute
         (ExtractWorker.new (m_Wrapped this) None dir cb) w
       = (let answer :=
            Archive_extractAll (m_Wrapped this) dir p (errno w, disk w) in
          (Ret {| ExtractWorker.super :=
                    {| AsyncWorker.callback := cb;
                       AsyncWorker.errmsg_ := convertErrorCode (fst answer) |};
                  ExtractWorker.m_Archive := m_Wrapped this;
                  ExtractWorker.m_File := None;
                  ExtractWorker.m_OutputDirectory := dir |},
           after_engine_call w (CallExtractAll dir p)
             (fst (snd answer)) (snd (snd answer))))
    /\ BSArchive.extractAll this dir cb thread_errno w
       = (let answer :=
            Archive_extractAll (m_Wrapped this) dir p (thread_errno, disk w) in
          (Ret tt,
           after_submission w (snd (snd answer)) [CallExtractAll dir p] cb
             [match convertErrorCode (fst answer) with
              | None => JsNull
              | Some msg => JsError msg
              end])).
Proof.
  exists ExtractWorker.progress. split; [reflexivity|]. split.
  - apply (ExtractWorker_Execute_run (m_Wrapped this) None dir cb w).
  - unfold BSArchive.extractAll. rewrite extract_submission. reflexivity.
Qed.

(** With the reference engine, whose extract-all reports canceled as soon
    as the predicate says no, the layer's predicate never cancels. *)
Lemma ref_extract_each_continues (fs : list File) (dir : string) :
  forall index s,
    fst (RefEngine.extract_each fs index dir ExtractWorker.progress s)
    = ERROR_NONE.
Proof.
  induction fs as [|f rest IH]; intros index s; cbn.
  - reflexivity.
  - apply IH.
Qed.

Example ref_extract_each_can_cancel :
  fst (RefEngine.extract_each [RefEngine.sample_file "a.dds" 10] 0 "out"
         (fun _ _ => false) (0, []))
  = ERROR_CANCELED.
Proof. reflexivity. Qed.

(* ------------------------------------------------------------------ *)
(** * Dispatch in [ExtractWorker] *)

Lemma issued_not_null (file : BSAFile.t) :
  issued file -> exists f, BSAFile.getWrappee file = Some f.
Proof.
  intros [folder index file' Hget | this name sourcePath compressed].
  - unfold BSAFolder.getFile in Hget.
    destruct (Folder_.getFile (BSAFolder.m_Folder folder) index) as [f|];
      cbn in Hget; [|discriminate].
    injection Hget as <-. exists f. reflexivity.
  - eexists. reflexivity.
Qed.

(** C9.  [extractFile] on a handle the caller can hold submits a worker with
    that handle's non-null file, and [extractAll] submits one with a null
    file.  A worker with a file makes the engine's single-file extract call
    on exactly that file, a worker without one makes the extract-all call;
    either way the error message is set if and only if the engine's code is
    not the success code. *)
Theorem ExtractWorker_dispatch {E : Engine} :
  (forall this file dir cb,
     issued file ->
     exists f,
       BSAFile.getWrappee file = Some f
       /\ BSArchive.extractFile this file dir cb
          = AsyncQueueWorker
              (ExtractWorker.new (m_Wrapped this) (Some f) dir cb))
  /\ (forall this dir cb,
        BSArchive.extractAll this dir cb
        = AsyncQueueWorker (ExtractWorker.new (m_Wrapped this) None dir cb))
  /\ (forall ar f dir cb (w : World),
        let answer := Archive_extract ar f dir (errno w, disk w) in
        exists worker',
          ExtractWorker.Execute (ExtractWorker.new ar (Some f) dir cb) w
          = (Ret worker',
             after_engine_call w (CallExtract f dir)
               (fst (snd answer)) (snd (snd answer)))
          /\ (AsyncWorker.errmsg_ (ExtractWorker.super worker') <> None
              <-> fst answer <> ERROR_NONE))
  /\ (forall ar dir cb (w : World),
        let answer :=
          Archive_extractAll ar dir ExtractWorker.progress (errno w, disk w) in
        exists worker',
          ExtractWorker.Execute (ExtractWorker.new ar None dir cb) w
          = (Ret worker',
             after_engine_call w (CallExtractAll dir ExtractWorker.progress)
               (fst (snd answer)) (snd (snd answer)))
          /\ (AsyncWorker.errmsg_ (ExtractWorker.super worker') <> None
              <-> fst answer <> ERROR_NONE)).
Proof.
  split; [|split; [|split]].
  - intros this file dir cb Hissued.
    destruct (issued_not_null file Hissued) as [f Hf].
    exists f. split; [exact Hf|].
    unfold BSArchive.extractFile. rewrite Hf. reflexivity.
  - reflexivity.
  - intros ar f dir cb w answer. eexists.
    split; [apply (ExtractWorker_Execute_run ar (Some f) dir cb w)|].
    cbn. rewrite convertErrorCode_null. reflexivity.
  - intros ar dir cb w answer. eexists.
    split; [apply (ExtractWorker_Execute_run ar None dir cb w)|].
    cbn. rewrite convertErrorCode_null. reflexivity.
Qed.

Lemma ExtractWorker_dispatch_witness :
  issued (BSArchive.createFile RefEngine.staged_archive "b.txt" "src/b.txt"
            true)
  /\ exists f,
       BSAFile.getWrappee
         (BSArchive.createFile RefEngine.staged_archive "b.txt" "src/b.txt"
            true) = Some f
       /\ BSArchive.extractFile (E := RefEngine.engine)
            RefEngine.staged_archive
            (BSArchive.createFile RefEngine.staged_archive "b.txt"
               "src/b.txt" true) "out" 5%nat
          = AsyncQueueWorker
              (ExtractWorker.new (m_Wrapped RefEngine.staged_archive)
                 (Some f) "out" 5%nat).
Proof.
  split.
  - apply issued_createFile.
  - apply (proj1 (ExtractWorker_dispatch (E := RefEngine.engine))).
    apply issued_createFile.
Defined.

Example extract_one_sample_file :
  engine_calls
    (snd (BSArchive.extractFile (E := RefEngine.engine)
            {| m_Wrapped := RefEngine.sample_archive; m_Name := "data.bsa" |}
            (BSAFile.new (Some (RefEngine.sample_file "sky.dds" 5)))
            "out" 5%nat 0 (RefEngine.main_world RefEngine.sample_disk)))
  = [CallExtract (RefEngine.sample_file "sky.dds" 5) "out"].
Proof. reflexivity. Qed.

(* ------------------------------------------------------------------ *)
(** * Construction-only operations *)

(** C8.  Building an archive with [create = true] returns the fresh archive
    and leaves the world as it was: the engine's read is not called, nothing
    is thrown or scheduled.  [getRoot] hands out the engine's root folder,
    and [createFile] hands out a non-null entry that records the external
    source path as given, whatever is or is not on disk. *)
Theorem construction_only_operations {E : Engine} :
  (forall fileName testHashes (w : World),
     BSArchive.new fileName testHashes true w
     = (Ret {| m_Wrapped := Archive_new; m_Name := fileName |}, w))
  /\ (forall this : BSArchive.t,
        BSAFolder.m_Folder (BSArchive.getRoot this) = ar_root (m_Wrapped this))
  /\ (forall (this : BSArchive.t) name sourcePath compressed,
        exists f,
          BSAFile.getWrappee
            (BSArchive.createFile this name sourcePath compressed) = Some f
          /\ file_name f = name
          /\ file_source f = ExternalPath sourcePath
          /\ file_compressed f = compressed).
Proof.
  split; [|split].
  - reflexivity.
  - reflexivity.
  - intros this name sourcePath compressed. eexists.
    split; [reflexivity|]. cbn. auto.
Qed.

(** Validation waits for [write]: with the reference engine, staging a file
    whose source is not on disk goes through, and writing the archive it was
    added to is what reports the missing source. *)
Example missing_source_surfaces_at_write :
  BSAFile.getFilePath
    (BSArchive.createFile RefEngine.staged_archive "a.txt" "missing/a.txt"
       false) = Some "a.txt"
  /\ fst (BSArchive.write (E := RefEngine.engine) RefEngine.staged_archive
            (RefEngine.pool_world []))
     = Throw (ExBSA (BSAException.mk ERROR_SOURCEFILEMISSING 0
                       (Some "write"))).
Proof. split; reflexivity. Qed.

(* ------------------------------------------------------------------ *)
(** * Failed loads *)

(** C1 (what the code does).  Loading a path that is not on disk: the engine
    answers file-not-found with [ENOENT], and the completion handler gets an
    errno-based error carrying that number, whose system-call name is
    "write" although the operation attempted was a read. *)
Theorem load_missing_file_names_write (mem : LoadWorker.Indeterminate)
  (thread_errno : Z) :
  load_outcome (E := RefEngine.engine) "absent.bsa" false
    (pool_view thread_errno (RefEngine.main_world RefEngine.sample_disk))
  = ReadReturns ERROR_FILENOTFOUND RefEngine.empty_archive
  /\ js_calls (snd (loadBSA (E := RefEngine.engine) "absent.bsa" false 7%nat
                      mem thread_errno
                      (RefEngine.main_world RefEngine.sample_disk)))
     = [(7%nat, [JsErrnoException RefEngine.ENOENT (Some "write")])].
Proof. split; reflexivity. Qed.

(** C10 (what the code does).  Loading a file on which construction raises
    a [std::exception] that is no [BSAException]: after [Execute] the error
    message is set, so the error callback will run, but the error code, the
    errno and the system-call name are still what the allocation held.  With
    stale contents the callback reports an access failure that never
    happened. *)
Theorem load_exception_leaves_members_unassigned
  (mem : LoadWorker.Indeterminate) (thread_errno : Z) :
  exists worker' w',
    LoadWorker.Execute (E := RefEngine.engine)
      (LoadWorker.new "huge.bsa" false false 7%nat mem)
      (RefEngine.pool_world RefEngine.sample_disk)
    = (Ret worker', w')
    /\ AsyncWorker.errmsg_ (LoadWorker.super worker') = Some "bad allocation"
    /\ LoadWorker.m_ErrorCode worker' = LoadWorker.mem_ErrorCode mem
    /\ LoadWorker.m_Errno worker' = LoadWorker.mem_Errno mem
    /\ LoadWorker.m_SysCall worker' = LoadWorker.mem_SysCall mem
    /\ js_calls (snd (loadBSA (E := RefEngine.engine) "huge.bsa" false 7%nat
                        RefEngine.stale_junk thread_errno
                        (RefEngine.main_world RefEngine.sample_disk)))
       = [(7%nat, [JsErrnoException 13 (Some "stale")])].
Proof.
  eexists. eexists. split; [reflexivity|]. cbn. repeat split.
Qed.

(* ------------------------------------------------------------------ *)
(** * File counts *)

(** Induction over folders with the hypothesis available for every direct
    subfolder. *)
Lemma Folder_nested_ind (P : Folder -> Prop) :
  (forall name full_path subs fs,
     Forall P subs -> P (mkFolder name full_path subs fs)) ->
  forall f, P f.
Proof.
  intros Hstep.
  fix IH 1.
  intros [name full_path subs fs]. apply Hstep.
  induction subs as [|sub rest IHrest]; constructor.
  - apply IH.
  - exact IHrest.
Qed.

Lemma to_uint_small (z : Z) : 0 <= z < UINT_MOD -> to_uint z = z.
Proof. intros Hz. unfold to_uint. apply Z.mod_small. exact Hz. Qed.

Lemma UINT_MOD_pos : 0 < UINT_MOD.
Proof. reflexivity. Qed.

Lemma sum_totals_nonneg (subs : list Folder) :
  Forall (fun f => 0 <= Folder_.total_files f) subs ->
  0 <= fold_right (fun sub acc => Folder_.total_files sub + acc) 0 subs.
Proof.
  induction 1 as [|sub rest Hsub _ IH]; cbn; lia.
Qed.

Lemma total_files_nonneg (f : Folder) : 0 <= Folder_.total_files f.
Proof.
  induction f as [name full_path subs fs IH] using Folder_nested_ind.
  cbn. pose proof (sum_totals_nonneg subs IH). lia.
Qed.

Lemma all_totals_nonneg (subs : list Folder) :
  Forall (fun f => 0 <= Folder_.total_files f) subs.
Proof. apply Forall_forall. intros f _. apply total_files_nonneg. Qed.

Lemma total_files_subfolder (f sub : Folder) :
  In sub (Folder_.subfolders f) ->
  Folder_.total_files sub <= Folder_.total_files f.
Proof.
  destruct f as [name full_path subs fs]. cbn.
  intros Hin.
  assert (Hle : Folder_.total_files sub
                <= fold_right (fun s acc => Folder_.total_files s + acc) 0 subs).
  { induction subs as [|s rest IH]; cbn in *; [contradiction|].
    pose proof (sum_totals_nonneg rest (all_totals_nonneg rest)).
    pose proof (total_files_nonneg s).
    destruct Hin as [->|Hin]; [lia|]. specialize (IH Hin). lia. }
  lia.
Qed.

(** The running total of the loop over subfolders, when nothing wraps. *)
Lemma fold_counts_exact (subs : list Folder) :
  Forall (fun f => Folder_.total_files f < UINT_MOD ->
                   Folder_.countFiles f = Folder_.total_files f) subs ->
  forall acc,
    0 <= acc ->
    acc + fold_right (fun s a => Folder_.total_files s + a) 0 subs < UINT_MOD ->
    fold_left (fun a s => to_uint (a + Folder_.countFiles s)) subs acc
    = acc + fold_right (fun s a => Folder_.total_files s + a) 0 subs.
Proof.
  induction 1 as [|sub rest Hsub _ IH]; intros acc Hacc Hbound;
    cbn [fold_left fold_right] in *.
  - lia.
  - pose proof (total_files_nonneg sub) as Hs.
    pose proof (sum_totals_nonneg rest (all_totals_nonneg rest)) as Hr.
    rewrite Hsub by lia.
    rewrite to_uint_small by lia.
    rewrite IH by lia. lia.
Qed.

(** Below 2^32 the engine's count is the number of files in the subtree. *)
Lemma countFiles_exact (f : Folder) :
  Folder_.total_files f < UINT_MOD ->
  Folder_.countFiles f = Folder_.total_files f.
Proof.
  induction f as [name full_path subs fs IH] using Folder_nested_ind.
  intros Hbound. cbn [Folder_.countFiles Folder_.total_files] in *.
  pose proof (sum_totals_nonneg subs (all_totals_nonneg subs)) as Hs.
  rewrite fold_counts_exact by (try exact IH; lia).
  apply to_uint_small. lia.
Qed.

Lemma sum_counts_children (subs : list Folder) :
  Forall (fun f => Folder_.countFiles f = Folder_.total_files f) subs ->
  sum_counts (map BSAFolder.countFiles (map BSAFolder.new subs))
  = fold_right (fun s a => Folder_.total_files s + a) 0 subs.
Proof.
  induction 1 as [|sub rest Hsub _ IH]; cbn.
  - reflexivity.
  - unfold sum_counts in IH. rewrite IH.
    unfold BSAFolder.countFiles. cbn. rewrite Hsub. reflexivity.
Qed.

Lemma at_index_In {A : Type} (l : list A) (index : Z) (a : A) :
  Folder_.at_index l index = Some a -> In a l.
Proof.
  unfold Folder_.at_index.
  destruct ((0 <=? index) && (index <? Z.of_nat (List.length l)));
    [|discriminate].
  apply nth_error_In.
Qed.

Lemma descend_total_files (path : list Z) :
  forall root folder,
    BSAFolder.descend root path = Some folder ->
    Folder_.total_files (BSAFolder.m_Folder folder)
    <= Folder_.total_files (BSAFolder.m_Folder root).
Proof.
  induction path as [|i rest IH]; intros root folder Hd; cbn in Hd.
  - injection Hd as <-. lia.
  - unfold BSAFolder.getSubFolder, Folder_.getSubFolder in Hd.
    destruct (Folder_.at_index (Folder_.subfolders (BSAFolder.m_Folder root)) i)
      as [sub|] eqn:Hsub; cbn in Hd; [|discriminate].
    apply IH in Hd. cbn in Hd.
    apply at_index_In in Hsub. apply total_files_subfolder in Hsub. lia.
Qed.

(** [children] lists what [getSubFolder] yields for the valid indices. *)
Lemma children_getSubFolder (this : BSAFolder.t) (index : Z) :
  0 <= index < Z.of_nat (List.length (BSAFolder.children this)) ->
  BSAFolder.getSubFolder this index
  = nth_error (BSAFolder.children this) (Z.to_nat index).
Proof.
  unfold BSAFolder.children, BSAFolder.getSubFolder, Folder_.getSubFolder,
    Folder_.at_index.
  rewrite length_map. intros [Hlo Hhi].
  apply Z.leb_le in Hlo. apply Z.ltb_lt in Hhi. rewrite Hlo, Hhi. cbn.
  rewrite nth_error_map. reflexivity.
Qed.

(** C7.  In an archive whose file total fits an [unsigned int], every folder
    reached from the root satisfies: the recursive file count equals the
    direct file count plus the sum of the recursive counts of the direct
    subfolders. *)
Theorem countFiles_recursive_invariant (a : BSArchive.t) (path : list Z)
  (folder : BSAFolder.t) :
  Folder_.total_files (ar_root (m_Wrapped a)) < UINT_MOD ->
  BSAFolder.descend (BSArchive.getRoot a) path = Some folder ->
  BSAFolder.countFiles folder
  = BSAFolder.getNumFiles folder
    + sum_counts (map BSAFolder.countFiles (BSAFolder.children folder)).
Proof.
  intros Hfit Hreach.
  apply descend_total_files in Hreach. cbn in Hreach.
  unfold Archive_.getRoot in Hreach.
  destruct folder as [[name full_path subs fs]]. cbn in Hreach.
  pose proof (sum_totals_nonneg subs (all_totals_nonneg subs)) as Hs.
  unfold BSAFolder.getNumFiles, BSAFolder.children, Folder_.getNumFiles.
  cbn [BSAFolder.m_Folder Folder_.files Folder_.subfolders].
  rewrite sum_counts_children.
  - change (BSAFolder.countFiles {| BSAFolder.m_Folder :=
                                      mkFolder name full_path subs fs |})
      with (Folder_.countFiles (mkFolder name full_path subs fs)).
    rewrite countFiles_exact by (cbn [Folder_.total_files]; lia).
    rewrite to_uint_small by lia.
    cbn [Folder_.total_files]. lia.
  - apply Forall_forall. intros sub Hin. apply countFiles_exact.
    pose proof (total_files_subfolder (mkFolder name full_path subs fs) sub Hin)
      as Hle.
    cbn [Folder_.total_files] in Hle. lia.
Qed.

Lemma countFiles_recursive_invariant_witness :
  BSAFolder.countFiles
    (BSAFolder.new
       (mkFolder "textures" "textures"
          [ mkFolder "armor" "textures/armor" []
              [ RefEngine.sample_file "a.dds" 10;
                RefEngine.sample_file "b.dds" 20 ] ]
          [ RefEngine.sample_file "sky.dds" 5 ]))
  = 1 + sum_counts [2].
Proof.
  apply (countFiles_recursive_invariant
           {| m_Wrapped := RefEngine.sample_archive; m_Name := "data.bsa" |}
           [0]).
  - vm_compute. reflexivity.
  - reflexivity.
Defined.

(** Without the bound the same equation holds modulo 2^32, which is all that
    [unsigned int] arithmetic can give. *)
Lemma fold_counts_modular (subs : list Folder) :
  forall acc,
    to_uint (fold_left (fun a s => to_uint (a + Folder_.countFiles s)) subs acc)
    = to_uint (acc + sum_counts (map Folder_.countFiles subs)).
Proof.
  induction subs as [|sub rest IH]; intros acc; cbn [fold_left map].
  - unfold sum_counts. cbn. f_equal. lia.
  - rewrite IH. unfold sum_counts, to_uint. cbn [fold_right].
    rewrite Zplus_mod_idemp_l. f_equal. lia.
Qed.

Lemma countFiles_modular (folder : BSAFolder.t) :
  BSAFolder.countFiles folder
  = to_uint (BSAFolder.getNumFiles folder
             + sum_counts (map BSAFolder.countFiles
                             (BSAFolder.children folder))).
Proof.
  destruct folder as [[name full_path subs fs]].
  unfold BSAFolder.countFiles, BSAFolder.getNumFiles, BSAFolder.children,
    Folder_.getNumFiles.
  cbn [BSAFolder.m_Folder Folder_.files Folder_.subfolders Folder_.countFiles].
  rewrite map_map. cbn [BSAFolder.m_Folder BSAFolder.new].
  pose proof (fold_counts_modular subs 0) as Hfold.
  unfold to_uint in *.
  rewrite <- Zplus_mod_idemp_l, Hfold.
  rewrite Zplus_mod_idemp_l, Zplus_mod_idemp_l.
  change (fun x : Folder => Folder_.countFiles x) with Folder_.countFiles.
  f_equal. lia.
Qed.

(* ------------------------------------------------------------------ *)
(** * Further properties: construction and its exceptions *)

Section Construction.
Context {E : Engine}.

(** The loading constructor with the engine's answer made explicit. *)
Lemma BSArchive_new_unfold (fileName : string) (testHashes : bool)
  (w : World) (r : ReadOutcome) (e' : Z) (d' : Disk) :
  Archive_read (toWC fileName) testHashes Archive_new (errno w, disk w)
  = (r, (e', d')) ->
  BSArchive.new fileName testHashes false w =
  let w' := after_engine_call w (CallRead (toWC fileName) testHashes) e' d' in
  match r with
  | ReadRaises what => (Throw (ExStd what), w')
  | ReadReturns err ar =>
      let this' := {| m_Wrapped := ar; m_Name := fileName |} in
      if code_eqb err ERROR_NONE then (Ret this', w')
      else
        match isolate w with
        | None => (Throw (ExBSA (BSAException.mk err e' (Some "write"))), w')
        | Some _ =>
            if is_os_error err
            then (Ret this',
                  with_exception w' (JsErrnoException e' (Some "write")))
            else match convertErrorCode err with
                 | Some msg => (Ret this', with_exception w' (JsError msg))
                 | None => (Crash, w')
                 end
        end
  end.
Proof.
  intros Hread.
  unfold BSArchive.new, BSArchive.read, engine_op, after_engine_call,
    with_exception.
  cbn. unfold bind. cbn. rewrite Hread. cbn.
  destruct r as [err ar|what]; [|reflexivity].
  destruct (code_eqb err ERROR_NONE); cbn; [reflexivity|].
  destruct (isolate w); cbn; [|reflexivity].
  unfold BSArchive.direct_error.
  destruct (is_os_error err); cbn; [reflexivity|].
  destruct (convertErrorCode err); reflexivity.
Qed.

(** X1.  Constructing a [BSArchive] for loading on a thread that has an
    isolate never throws for an engine code: the object comes back wrapping
    what the engine left, and a failure is scheduled on the isolate, as an
    errno-based error named "write" for access-failed and file-not-found, as
    an error with the fixed description for every other failure code. *)
Theorem direct_construction_schedules_exception (fileName : string)
  (testHashes : bool) (w : World) (err : EErrorCode) (ar : Archive)
  (e' : Z) (d' : Disk) :
  isolate w <> None ->
  Archive_read (toWC fileName) testHashes Archive_new (errno w, disk w)
  = (ReadReturns err ar, (e', d')) ->
  let w' := after_engine_call w (CallRead (toWC fileName) testHashes) e' d' in
  exists w'',
    BSArchive.new fileName testHashes false w
    = (Ret {| m_Wrapped := ar; m_Name := fileName |}, w'')
    /\ (err = ERROR_NONE -> w'' = w')
    /\ (err = ERROR_ACCESSFAILED \/ err = ERROR_FILENOTFOUND ->
        w'' = with_exception w' (JsErrnoException e' (Some "write")))
    /\ (err <> ERROR_NONE -> err <> ERROR_ACCESSFAILED ->
        err <> ERROR_FILENOTFOUND ->
        exists msg,
          convertErrorCode err = Some msg
          /\ w'' = with_exception w' (JsError msg)).
Proof.
  intros Hiso Hread w'.
  rewrite (BSArchive_new_unfold _ _ _ _ _ _ Hread). fold w'. cbn zeta.
  destruct (isolate w) as [iso|]; [clear Hiso|contradiction].
  destruct (code_eqb err ERROR_NONE) eqn:Hnone.
  - apply code_eqb_true in Hnone. subst err. eexists. split; [reflexivity|].
    repeat split; intros; try reflexivity.
    + destruct H; discriminate.
    + contradiction.
  - apply code_eqb_false in Hnone.
    destruct (is_os_error err) eqn:Hos.
    + eexists. split; [reflexivity|].
      apply is_os_error_true in Hos.
      repeat split; intros; try reflexivity; try contradiction.
      destruct Hos; contradiction.
    + destruct (convertErrorCode_message err Hnone) as [msg Hmsg].
      rewrite Hmsg. eexists. split; [reflexivity|].
      apply is_os_error_false in Hos. destruct Hos as [Haf Hfnf].
      repeat split; intros.
      * contradiction.
      * destruct H; contradiction.
      * exists msg. split; reflexivity.
Qed.

(** X2.  A [BSAException] leaves the constructor only when the archive is
    being loaded on a thread without an isolate.  It then carries a code
    other than the success code, so [what()] is the non-null description of
    that code; its system-call name is "write" and its error number is the
    [errno] the engine's read left. *)
Theorem constructor_BSAException_shape (fileName : string)
  (testHashes create : bool) (w w' : World) (b : BSAException.t) :
  BSArchive.new fileName testHashes create w = (Throw (ExBSA b), w') ->
  create = false
  /\ isolate w = None
  /\ BSAException.code b <> ERROR_NONE
  /\ (exists msg, BSAException.what b = Some msg)
  /\ BSAException.sysCall b = Some "write"
  /\ BSAException.sysError b = errno w'.
Proof.
  destruct create; [discriminate|].
  destruct (Archive_read (toWC fileName) testHashes Archive_new
              (errno w, disk w)) as [r [e' d']] eqn:Hread.
  rewrite (BSArchive_new_unfold _ _ _ _ _ _ Hread). cbn zeta.
  destruct r as [err ar|what]; [|discriminate].
  destruct (code_eqb err ERROR_NONE) eqn:Hnone; [discriminate|].
  apply code_eqb_false in Hnone.
  destruct (isolate w) eqn:Hiso.
  - destruct (is_os_error err); [discriminate|].
    destruct (convertErrorCode err); discriminate.
  - intros Heq. injection Heq as <- <-. cbn.
    repeat split; try assumption.
    apply convertErrorCode_message. exact Hnone.
Qed.

End Construction.

Lemma direct_construction_schedules_exception_witness :
  exists w'',
    BSArchive.new (E := RefEngine.engine) "absent.bsa" true false
      (RefEngine.main_world RefEngine.sample_disk)
    = (Ret {| m_Wrapped := RefEngine.empty_archive; m_Name := "absent.bsa" |},
       w'')
    /\ isolate w''
       = Some {| pending :=
                   Some (JsErrnoException RefEngine.ENOENT (Some "write")) |}.
Proof.
  destruct (direct_construction_schedules_exception (E := RefEngine.engine)
              "absent.bsa" true (RefEngine.main_world RefEngine.sample_disk)
              ERROR_FILENOTFOUND RefEngine.empty_archive RefEngine.ENOENT
              RefEngine.sample_disk)
    as [w'' [Hrun [_ [Hos _]]]].
  - discriminate.
  - reflexivity.
  - exists w''. split; [exact Hrun|].
    rewrite (Hos (or_intror eq_refl)). reflexivity.
Defined.

Lemma constructor_BSAException_shape_witness :
  BSAException.sysCall
    (BSAException.mk ERROR_INVALIDDATA 0 (Some "write")) = Some "write"
  /\ isolate (RefEngine.pool_world RefEngine.sample_disk) = None.
Proof.
  pose proof (constructor_BSAException_shape (E := RefEngine.engine)
                "notes.txt" false false
                (RefEngine.pool_world RefEngine.sample_disk)
                (after_engine_call (RefEngine.pool_world RefEngine.sample_disk)
                   (CallRead "notes.txt" false) 0 RefEngine.sample_disk)
                (BSAException.mk ERROR_INVALIDDATA 0 (Some "write"))
                eq_refl) as [_ [Hiso [_ [_ [Hcall _]]]]].
  split; [exact Hcall | exact Hiso].
Defined.

(* ------------------------------------------------------------------ *)
(** * Further properties: [LoadWorker] *)

Section LoadWorkerSafety.
Context {E : Engine}.

(** What [Execute] leaves, by the way construction ended. *)
Lemma LoadWorker_Execute_cases (this : LoadWorker.t) (w : World) :
  (exists a w',
     BSArchive.new (LoadWorker.m_OutputDirectory this)
       (LoadWorker.m_TestHashes this) (LoadWorker.m_Create this) w
     = (Ret a, w')
     /\ LoadWorker.Execute this w
        = (Ret {| LoadWorker.super := LoadWorker.super this;
                  LoadWorker.m_Result := Some a;
                  LoadWorker.m_OutputDirectory :=
                    LoadWorker.m_OutputDirectory this;
                  LoadWorker.m_ErrorCode := LoadWorker.m_ErrorCode this;
                  LoadWorker.m_Errno := LoadWorker.m_Errno this;
                  LoadWorker.m_SysCall := LoadWorker.m_SysCall this;
                  LoadWorker.m_TestHashes := LoadWorker.m_TestHashes this;
                  LoadWorker.m_Create := LoadWorker.m_Create this |}, w')
     /\ m_Name a = LoadWorker.m_OutputDirectory this)
  \/ (exists worker' w' msg,
        LoadWorker.Execute this w = (Ret worker', w')
        /\ AsyncWorker.errmsg_ (LoadWorker.super worker') = Some msg).
Proof.
  unfold LoadWorker.Execute, try_catch, bind.
  destruct (LoadWorker.m_Create this) eqn:Hcreate.
  - left. cbn. eexists. eexists. repeat split.
  - destruct (Archive_read (toWC (LoadWorker.m_OutputDirectory this))
                (LoadWorker.m_TestHashes this) Archive_new (errno w, disk w))
      as [r [e' d']] eqn:Hread.
    rewrite (BSArchive_new_unfold _ _ _ _ _ _ Hread). cbn zeta.
    destruct r as [err ar|what].
    + destruct (code_eqb err ERROR_NONE) eqn:Hnone.
      * left. eexists. eexists. repeat split.
      * apply code_eqb_false in Hnone.
        destruct (convertErrorCode_message err Hnone) as [msg Hmsg].
        destruct (isolate w).
        -- destruct (is_os_error err).
           ++ left. eexists. eexists. repeat split.
           ++ rewrite Hmsg. left. eexists. eexists. repeat split.
        -- right. unfold BSAException.what. cbn. rewrite Hmsg. cbn.
           eexists. eexists. exists msg. split; reflexivity.
    + right. cbn. eexists. eexists. exists what. split; reflexivity.
Qed.

(** X3.  [LoadWorker::Execute] contains every way construction can end: for
    any worker, engine and world it returns; no exception leaves it and it
    never hands a null message to [SetErrorMessage]. *)
Theorem LoadWorker_Execute_returns (this : LoadWorker.t) (w : World) :
  exists worker' w', LoadWorker.Execute this w = (Ret worker', w').
Proof.
  destruct (LoadWorker_Execute_cases this w)
    as [[a [w' [_ [Hrun _]]]] | [worker' [w' [msg [Hrun _]]]]];
    eexists; eexists; exact Hrun.
Qed.

(** X4.  When a freshly built worker comes out of [Execute] without an error
    message, so that [HandleOKCallback] is the handler that runs, [m_Result]
    was assigned by this [Execute]: it is an archive named after the
    requested file, whatever the member held before, and the callback gets
    null and that archive. *)
Theorem ok_callback_result_assigned (fileName : string)
  (testHashes create : bool) (cb : JsFunction)
  (mem : LoadWorker.Indeterminate) (w w' : World) (worker' : LoadWorker.t) :
  LoadWorker.Execute (LoadWorker.new fileName testHashes create cb mem) w
  = (Ret worker', w') ->
  AsyncWorker.errmsg_ (LoadWorker.super worker') = None ->
  exists a,
    LoadWorker.m_Result worker' = Some a
    /\ m_Name a = fileName
    /\ forall w2 : World,
         LoadWorker.HandleOKCallback worker' w2
         = (Ret tt,
            {| errno := errno w2; disk := disk w2; isolate := isolate w2;
               engine_calls := engine_calls w2;
               js_calls := js_calls w2 ++ [(cb, [JsNull; JsArchive a])] |}).
Proof.
  intros Hrun Hmsg.
  destruct (LoadWorker_Execute_cases
              (LoadWorker.new fileName testHashes create cb mem) w)
    as [[a [w1 [_ [Hexec Hname]]]] | [worker1 [w1 [msg [Hexec Herr]]]]].
  - rewrite Hexec in Hrun. injection Hrun as <- <-.
    exists a. cbn in *. split; [reflexivity|]. split; [exact Hname|].
    intros w2. reflexivity.
  - rewrite Hexec in Hrun. injection Hrun as <- <-. congruence.
Qed.

(** X5.  A load for which the engine's read, run on the pool thread from
    that thread's [errno], answers a failure code ends with one call of the
    handler carrying one argument: for access-failed and file-not-found an
    errno-based error with the [errno] the read left on the pool thread and
    the system-call name "write", for every other code an error with the
    code's fixed description. *)
Theorem failed_load_error_argument (fileName : string) (testHashes : bool)
  (cb : JsFunction) (mem : LoadWorker.Indeterminate) (thread_errno : Z)
  (w : World) (err : EErrorCode) (ar : Archive) (e' : Z) (d' : Disk) :
  Archive_read (toWC fileName) testHashes Archive_new (thread_errno, disk w)
  = (ReadReturns err ar, (e', d')) ->
  err <> ERROR_NONE ->
  (err = ERROR_ACCESSFAILED \/ err = ERROR_FILENOTFOUND ->
   loadBSA fileName testHashes cb mem thread_errno w
   = (Ret tt,
      after_submission w d' [CallRead (toWC fileName) testHashes] cb
        [JsErrnoException e' (Some "write")]))
  /\ (err <> ERROR_ACCESSFAILED -> err <> ERROR_FILENOTFOUND ->
      exists msg,
        convertErrorCode err = Some msg
        /\ loadBSA fileName testHashes cb mem thread_errno w
           = (Ret tt,
              after_submission w d' [CallRead (toWC fileName) testHashes] cb
                [JsError msg])).
Proof.
  intros Hread Hne.
  destruct (load_submission_code fileName testHashes cb mem thread_errno w
              err ar e' d' Hread Hne) as [msg [Hmsg Hrun]].
  split.
  - intros Hos. apply is_os_error_true in Hos. rewrite Hos in Hrun.
    exact Hrun.
  - intros Haf Hfnf. exists msg. split; [exact Hmsg|].
    assert (Hos : is_os_error err = false)
      by (apply is_os_error_false; split; assumption).
    rewrite Hos in Hrun. exact Hrun.
Qed.

(** X6.  The members the constructor leaves uninitialised do not influence
    a request unless construction raises an exception that is no
    [BSAException]: whenever the engine's read returns a code, [loadBSA]
    ends the same for any two contents of those members, and [createBSA]
    always does. *)
Theorem outcome_ignores_indeterminate_members (fileName : string)
  (testHashes : bool) (cb : JsFunction)
  (mem1 mem2 : LoadWorker.Indeterminate) (thread_errno : Z) (w : World) :
  (forall what,
     load_outcome fileName testHashes (pool_view thread_errno w)
     <> ReadRaises what) ->
  loadBSA fileName testHashes cb mem1 thread_errno w
  = loadBSA fileName testHashes cb mem2 thread_errno w
  /\ createBSA fileName cb mem1 thread_errno w
     = createBSA fileName cb mem2 thread_errno w.
Proof.
  intros Hreturns. split.
  - unfold load_outcome in Hreturns. cbn [errno disk pool_view] in Hreturns.
    destruct (Archive_read (toWC fileName) testHashes Archive_new
                (thread_errno, disk w)) as [[err ar|what] [e' d']] eqn:Hread.
    + destruct (EErrorCode_eq_dec err ERROR_NONE) as [->|Hne].
      * rewrite (load_submission_ok _ _ cb mem1 _ _ _ _ _ Hread).
        rewrite (load_submission_ok _ _ cb mem2 _ _ _ _ _ Hread).
        reflexivity.
      * destruct (load_submission_code _ _ cb mem1 _ _ _ _ _ _ Hread Hne)
          as [msg1 [Hmsg1 Hrun1]].
        destruct (load_submission_code _ _ cb mem2 _ _ _ _ _ _ Hread Hne)
          as [msg2 [Hmsg2 Hrun2]].
        rewrite Hrun1, Hrun2. rewrite Hmsg1 in Hmsg2.
        injection Hmsg2 as <-. reflexivity.
    + exfalso. apply (Hreturns what). reflexivity.
  - rewrite !create_submission. reflexivity.
Qed.

End LoadWorkerSafety.

Lemma ok_callback_result_assigned_witness :
  exists a,
    m_Name a = "data.bsa"
    /\ LoadWorker.HandleOKCallback (E := RefEngine.engine)
         {| LoadWorker.super := AsyncWorker.new 7%nat;
            LoadWorker.m_Result :=
              Some {| m_Wrapped := RefEngine.sample_archive;
                      m_Name := "data.bsa" |};
            LoadWorker.m_OutputDirectory := "data.bsa";
            LoadWorker.m_ErrorCode := ERROR_ACCESSFAILED;
            LoadWorker.m_Errno := 13;
            LoadWorker.m_SysCall := Pointing (Some "stale");
            LoadWorker.m_TestHashes := false;
            LoadWorker.m_Create := false |}
         (RefEngine.main_world [])
       = (Ret tt,
          @mkWorld RefEngine.engine 0 [] (Some {| pending := None |}) []
            [(7%nat, [JsNull; JsArchive a])]).
Proof.
  destruct (ok_callback_result_assigned (E := RefEngine.engine)
              "data.bsa" false false 7%nat RefEngine.stale_junk
              (RefEngine.pool_world RefEngine.sample_disk)
              _ _ eq_refl eq_refl) as [a [Hres [Hname Hcall]]].
  exists a. split; [exact Hname|].
  exact (Hcall (RefEngine.main_world [])).
Defined.

Lemma failed_load_error_argument_witness :
  loadBSA (E := RefEngine.engine) "data.bsa" true 7%nat RefEngine.stale_junk
    11 (RefEngine.main_world RefEngine.sample_disk)
  = (Ret tt,
     after_submission (RefEngine.main_world RefEngine.sample_disk)
       RefEngine.sample_disk [CallRead "data.bsa" true] 7%nat
       [JsError "invalid hashes"]).
Proof.
  destruct (proj2 (failed_load_error_argument (E := RefEngine.engine)
                     "data.bsa" true 7%nat RefEngine.stale_junk 11
                     (RefEngine.main_world RefEngine.sample_disk)
                     ERROR_INVALIDHASHES RefEngine.empty_archive 11
                     RefEngine.sample_disk eq_refl ltac:(discriminate))
             ltac:(discriminate) ltac:(discriminate))
    as [msg [Hmsg Hrun]].
  injection Hmsg as <-. exact Hrun.
Defined.

Lemma outcome_ignores_indeterminate_members_witness :
  loadBSA (E := RefEngine.engine) "absent.bsa" false 7%nat RefEngine.no_junk
    0 (RefEngine.main_world RefEngine.sample_disk)
  = loadBSA (E := RefEngine.engine) "absent.bsa" false 7%nat
      RefEngine.stale_junk 0 (RefEngine.main_world RefEngine.sample_disk).
Proof.
  apply (outcome_ignores_indeterminate_members (E := RefEngine.engine)).
  intros what. discriminate.
Defined.

(* ------------------------------------------------------------------ *)
(** * Further properties: extraction errors and descriptions *)

(** X7.  A failed extraction is reported by description only.  Whatever
    failure code the engine answers, access-failed and file-not-found
    included, [extractFile] and [extractAll] end with one call of the
    handler whose single argument is an error made of the code's fixed
    description; no error number and no system-call name are passed on. *)
Theorem extract_failure_is_descriptive {E : Engine} (this : BSArchive.t)
  (file : BSAFile.t) (dir : string) (cb : JsFunction) (thread_errno : Z)
  (w : World) :
  (extract_code (m_Wrapped this) (BSAFile.getWrappee file) dir
     (pool_view thread_errno w)
   <> ERROR_NONE ->
   exists msg,
     convertErrorCode
       (extract_code (m_Wrapped this) (BSAFile.getWrappee file) dir
          (pool_view thread_errno w))
     = Some msg
     /\ js_calls (snd (BSArchive.extractFile this file dir cb thread_errno w))
        = (js_calls w ++ [(cb, [JsError msg])])%list)
  /\ (extract_code (m_Wrapped this) None dir (pool_view thread_errno w)
      <> ERROR_NONE ->
      exists msg,
        convertErrorCode
          (extract_code (m_Wrapped this) None dir (pool_view thread_errno w))
        = Some msg
        /\ js_calls (snd (BSArchive.extractAll this dir cb thread_errno w))
           = (js_calls w ++ [(cb, [JsError msg])])%list).
Proof.
  split; intros Hne;
    destruct (convertErrorCode_message _ Hne) as [msg Hmsg];
    exists msg; (split; [exact Hmsg|]).
  - unfold BSArchive.extractFile. rewrite extract_submission, Hmsg.
    reflexivity.
  - unfold BSArchive.extractAll. rewrite extract_submission, Hmsg.
    reflexivity.
Qed.

Lemma extract_failure_is_descriptive_witness :
  js_calls
    (snd (BSArchive.extractAll (E := DeniedEngine.engine)
            {| m_Wrapped := RefEngine.sample_archive; m_Name := "data.bsa" |}
            "out" 5%nat 0 (DeniedEngine.main_world RefEngine.sample_disk)))
  = [(5%nat, [JsError "access failed"])].
Proof.
  destruct (proj2 (extract_failure_is_descriptive (E := DeniedEngine.engine)
                     {| m_Wrapped := RefEngine.sample_archive;
                        m_Name := "data.bsa" |}
                     (BSAFile.new None) "out" 5%nat 0
                     (DeniedEngine.main_world RefEngine.sample_disk))
             ltac:(discriminate)) as [msg [Hmsg Hcalls]].
  injection Hmsg as <-. exact Hcalls.
Defined.

(** X8.  The description identifies the code: a code that
    [convertErrorCode] has a case for shares its result with no other code,
    named or not; in particular no named code is described as "unknown". *)
Theorem convertErrorCode_identifies_named_code (c1 c2 : EErrorCode) :
  In c1 named_codes ->
  convertErrorCode c1 = convertErrorCode c2 ->
  c1 = c2.
Proof.
  intros Hnamed Heq.
  destruct c1; destruct c2; cbn in Heq;
    try reflexivity; try discriminate Heq.
  exfalso. unfold named_codes in Hnamed. cbn in Hnamed.
  repeat (destruct Hnamed as [Hnamed|Hnamed]; [discriminate Hnamed|]).
  exact Hnamed.
Qed.

Lemma convertErrorCode_identifies_named_code_witness :
  ERROR_CANCELED = ERROR_CANCELED
  /\ convertErrorCode ERROR_CANCELED <> convertErrorCode (ERROR_UNNAMED 8).
Proof.
  split.
  - apply (convertErrorCode_identifies_named_code ERROR_CANCELED
             ERROR_CANCELED); [cbn; tauto | reflexivity].
  - intros Heq.
    pose proof (convertErrorCode_identifies_named_code ERROR_CANCELED
                  (ERROR_UNNAMED 8) ltac:(cbn; tauto) Heq) as Hsame.
    discriminate Hsame.
Defined.

(* ------------------------------------------------------------------ *)
(** * Further properties: operations in sequence *)

Section Pipelines.
Context {E : Engine}.

(** Whatever the engine answers, [write] makes one engine call, for the
    archive's own name, and calls no JavaScript function. *)
Lemma write_logs (this : BSArchive.t) (w : World) :
  engine_calls (snd (BSArchive.write this w))
  = (engine_calls w ++ [CallWrite (m_Name this)])%list
  /\ js_calls (snd (BSArchive.write this w)) = js_calls w.
Proof.
  destruct (Archive_write (m_Name this) (m_Wrapped this) (errno w, disk w))
    as [err [e' d']] eqn:Heng.
  rewrite (write_unfold _ _ _ _ _ Heng). cbn zeta.
  destruct (negb (code_eqb err ERROR_NONE)); [|split; reflexivity].
  destruct (isolate w); [|split; reflexivity].
  destruct (is_os_error err); [split; reflexivity|].
  destruct (convertErrorCode err); split; reflexivity.
Qed.

(** X9.  Loading and then extracting everything from the handle the load
    delivered: the engine sees the read, then one extract-all on the archive
    that the read filled in, against the disk as the read left it, each run
    from the [errno] of the pool thread it runs on; the two handlers are
    called once each, in that order, the first with null and the handle, the
    second with null or with the description of the extract-all's failure
    code. *)
Theorem load_then_extractAll (fileName : string) (testHashes : bool)
  (cb : JsFunction) (mem : LoadWorker.Indeterminate) (thread_errno : Z)
  (w : World) (ar : Archive) (e' : Z) (d' : Disk) (dir : string)
  (cb2 : JsFunction) (thread_errno2 : Z) :
  Archive_read (toWC fileName) testHashes Archive_new (thread_errno, disk w)
  = (ReadReturns ERROR_NONE ar, (e', d')) ->
  let a := {| m_Wrapped := ar; m_Name := fileName |} in
  let answer :=
    Archive_extractAll ar dir ExtractWorker.progress (thread_errno2, d') in
  (loadBSA fileName testHashes cb mem thread_errno ;;;
   BSArchive.extractAll a dir cb2 thread_errno2) w
  = (Ret tt,
     {| errno := errno w;
        disk := snd (snd answer);
        isolate := isolate w;
        engine_calls :=
          engine_calls w
          ++ [CallRead (toWC fileName) testHashes;
              CallExtractAll dir ExtractWorker.progress];
        js_calls :=
          js_calls w
          ++ [(cb, [JsNull; JsArchive a]);
              (cb2, [match convertErrorCode (fst answer) with
                     | None => JsNull
                     | Some msg => JsError msg
                     end])] |}).
Proof.
  intros Hread a answer.
  unfold bind. rewrite (load_submission_ok _ _ cb mem _ _ _ _ _ Hread).
  unfold BSArchive.extractAll. rewrite extract_submission.
  unfold after_submission, extract_code, extract_answer. cbn.
  rewrite <- !app_assoc. reflexivity.
Qed.

(** X10.  Creating an archive and then writing the delivered handle: the
    creation makes no engine call, and the write makes exactly one, for the
    path that was given to [createBSA]; the creation's handler is the only
    JavaScript function called.  When the engine's write succeeds the
    sequence returns with the disk as that write left it and nothing
    scheduled on the isolate. *)
Theorem create_then_write (fileName : string) (cb : JsFunction)
  (mem : LoadWorker.Indeterminate) (thread_errno : Z) (w : World) :
  let a := {| m_Wrapped := Archive_new; m_Name := fileName |} in
  let answer := Archive_write fileName Archive_new (errno w, disk w) in
  exists r w',
    (createBSA fileName cb mem thread_errno ;;; BSArchive.write a) w
    = (r, w')
    /\ engine_calls w' = (engine_calls w ++ [CallWrite fileName])%list
    /\ js_calls w' = (js_calls w ++ [(cb, [JsNull; JsArchive a])])%list
    /\ (fst answer = ERROR_NONE ->
        r = Ret tt /\ disk w' = snd (snd answer) /\ isolate w' = isolate w).
Proof.
  intros a answer.
  unfold bind. rewrite create_submission. fold a.
  set (w1 := after_submission w (disk w) [] cb [JsNull; JsArchive a]).
  destruct (BSArchive.write a w1) as [r w'] eqn:Hwrite.
  exists r, w'.
  pose proof (write_logs a w1) as [Hcalls Hjs]. rewrite Hwrite in Hcalls, Hjs.
  cbn [snd] in Hcalls, Hjs.
  split; [destruct r; reflexivity|].
  split; [rewrite Hcalls; unfold w1, after_submission; cbn;
          rewrite app_nil_r; reflexivity|].
  split; [exact Hjs|].
  intros Hok.
  assert (Heng : Archive_write (m_Name a) (m_Wrapped a) (errno w1, disk w1)
                 = (ERROR_NONE, (fst (snd answer), snd (snd answer)))).
  { unfold answer in *. cbn.
    destruct (Archive_write fileName Archive_new (errno w, disk w))
      as [c [e' d']]. cbn in *. subst c. reflexivity. }
  rewrite (write_unfold _ _ _ _ _ Heng) in Hwrite. cbn in Hwrite.
  injection Hwrite as <- <-. repeat split.
Qed.

End Pipelines.

Lemma load_then_extractAll_witness :
  js_calls
    (snd ((loadBSA (E := RefEngine.engine) "data.bsa" false 7%nat
             RefEngine.stale_junk 0 ;;;
           BSArchive.extractAll
             {| m_Wrapped := RefEngine.sample_archive; m_Name := "data.bsa" |}
             "out" 8%nat 0)
            (RefEngine.main_world RefEngine.sample_disk)))
  = [(7%nat, [JsNull;
              JsArchive {| m_Wrapped := RefEngine.sample_archive;
                           m_Name := "data.bsa" |}]);
     (8%nat, [JsNull])].
Proof.
  rewrite (load_then_extractAll (E := RefEngine.engine) "data.bsa" false
             7%nat RefEngine.stale_junk 0
             (RefEngine.main_world RefEngine.sample_disk)
             RefEngine.sample_archive 0 RefEngine.sample_disk "out" 8%nat 0
             eq_refl).
  reflexivity.
Defined.

Lemma create_then_write_witness :
  exists r w',
    (createBSA (E := RefEngine.engine) "new.bsa" 3%nat RefEngine.no_junk 0 ;;;
     BSArchive.write
       {| m_Wrapped := RefEngine.empty_archive; m_Name := "new.bsa" |})
      (RefEngine.main_world []) = (r, w')
    /\ engine_calls w' = [CallWrite "new.bsa"]
    /\ r = Ret tt
    /\ disk w' = [("new.bsa", RefEngine.Container RefEngine.empty_archive true)].
Proof.
  destruct (create_then_write (E := RefEngine.engine) "new.bsa" 3%nat
              RefEngine.no_junk 0 (RefEngine.main_world []))
    as [r [w' [Hrun [Hcalls [_ Hok]]]]].
  exists r, w'. split; [exact Hrun|]. split; [exact Hcalls|].
  destruct (Hok eq_refl) as [Hr [Hdisk _]].
  split; [exact Hr | exact Hdisk].
Defined.
